(** * goatdclient: the HTTP/JSON client of the goatd sailing daemon

    A shallow embedding of [goatdclient/goatd_client.py] (classes [Goatd],
    [Goat], [Behaviour] and the module-level waypoint queries), followed by
    the properties of the client that its specification states.

    Python values are first-order data; methods are state-passing functions
    over the receiver object and the list of HTTP requests issued so far;
    an exception is a result of its own, so that the state an exception
    leaves behind can be inspected. *)

From Stdlib Require Import ZArith String Ascii List Bool DecimalString.
From Stdlib Require Import Decimal DecimalFacts DecimalPos DecimalZ.
From Stdlib Require Import PrimFloat SpecFloat FloatOps.
Import ListNotations.

Set Warnings "-register-all".
Set Warnings "-inexact-float".

Open Scope Z_scope.
Open Scope string_scope.

(** ** Python values *)

(** The values [json.loads] produces and [json.dumps] accepts.  An object is
    kept as an association list in the order of the decoded text; [str] is a
    Rocq [string], one [ascii] per character; [float] is IEEE binary64. *)
Inductive value : Type :=
| VNone
| VBool (b : bool)
| VInt (z : Z)
| VFloat (f : float)
| VStr (s : string)
| VList (l : list value)
| VDict (d : list (string * value)).

(** The exceptions the client can meet. *)
Inductive exn : Type :=
| AttributeError
| TypeError
| ValueError
| OverflowError
| IndexError
| UnicodeDecodeError
| JSONDecodeError
| URLError
| HTTPError (status : Z).

Inductive result (A : Type) : Type :=
| Return (a : A)
| Raise (e : exn).
Arguments Return {A} a.
Arguments Raise {A} e.

Definition result_map {A B : Type} (f : A -> B) (r : result A) : result B :=
  match r with
  | Return a => Return (f a)
  | Raise e => Raise e
  end.

(** Builtins whose algorithms are not part of the client: parsing a [str]
    as a float ([float("1.5")]), and the [repr] that [str()] falls back to
    for floats, lists and dicts. *)
Class Runtime : Type := {
  str_to_float : string -> option float;
  repr : value -> string
}.

(** ** Builtin operations *)

(** [d.get(key, default)] on a dict. *)
Fixpoint dict_get (d : list (string * value)) (key : string) (default : value)
  : value :=
  match d with
  | [] => default
  | (k, v) :: d' => if String.eqb k key then v else dict_get d' key default
  end.

(** [key in d]. *)
Definition dict_mem (d : list (string * value)) (key : string) : bool :=
  existsb (fun kv => String.eqb (fst kv) key) d.

(** [x.get(key, default)]: only a dict has a [get] method. *)
Definition py_get_or (x : value) (key : string) (default : value)
  : result value :=
  match x with
  | VDict d => Return (dict_get d key default)
  | _ => Raise AttributeError
  end.

(** [x.get(key)], whose default is [None]. *)
Definition py_get (x : value) (key : string) : result value :=
  py_get_or x key VNone.

(** [x is not None]. *)
Definition is_not_None (x : value) : bool :=
  match x with
  | VNone => false
  | _ => true
  end.

(** [float(z)] for an int: the nearest binary64, ties to even;
    [OverflowError] when that is not finite. *)
Definition float_of_int (z : Z) : result float :=
  match binary_normalize prec emax z 0 false with
  | S754_infinity _ => Raise OverflowError
  | sf => Return (SF2Prim sf)
  end.

(** [float(x)]. *)
Definition py_float {rt : Runtime} (x : value) : result float :=
  match x with
  | VFloat f => Return f
  | VInt z => float_of_int z
  | VBool b => Return (if b then 1%float else 0%float)
  | VStr s =>
      match str_to_float s with
      | Some f => Return f
      | None => Raise ValueError
      end
  | VNone | VList _ | VDict _ => Raise TypeError
  end.

Definition str_of_int (z : Z) : string := NilZero.string_of_int (Z.to_int z).

(** [str(x)], which is what an empty format field applies. *)
Definition py_str {rt : Runtime} (x : value) : string :=
  match x with
  | VNone => "None"
  | VBool true => "True"
  | VBool false => "False"
  | VInt z => str_of_int z
  | VStr s => s
  | VFloat _ | VList _ | VDict _ => repr x
  end.

Fixpoint chars (s : string) : list value :=
  match s with
  | EmptyString => []
  | String c s' => VStr (String c EmptyString) :: chars s'
  end.

(** [a, b = x]: the iterable must yield exactly two items. *)
Definition unpack2 (x : value) : result (value * value) :=
  let two (items : list value) :=
    match items with
    | [a; b] => Return (a, b)
    | _ => Raise ValueError
    end in
  match x with
  | VList l => two l
  | VStr s => two (chars s)
  | VDict d => two (map (fun kv => VStr (fst kv)) d)
  | VNone | VBool _ | VInt _ | VFloat _ => Raise TypeError
  end.

(** *** [str.format]

    The fragment the client uses: literal text, the escapes [{{] and [}}],
    automatic fields [{}] and explicitly numbered fields [{0}], [{1}], ...
    Keyword fields, attribute access, conversions and format specs do not
    occur in the client and are rejected here. *)
Inductive numbering : Type :=
| Unset
| Automatic (next : nat)
| Manual.

Inductive fmt_state : Type :=
| InText
| AfterOpen
| InIndex (n : nat)
| AfterClose.

(** The position of [c] in [s], if it occurs. *)
Fixpoint index_of (c : ascii) (s : string) : option nat :=
  match s with
  | EmptyString => None
  | String c' s' =>
      if Ascii.eqb c c' then Some 0%nat else option_map S (index_of c s')
  end.

Definition digit_of (c : ascii) : option nat := index_of c "0123456789".

Section Format.
Context {rt : Runtime}.
Variable args : list value.

Definition field (n : nat) (rest : result string) : result string :=
  match nth_error args n with
  | Some v => result_map (append (py_str v)) rest
  | None => Raise IndexError
  end.

Fixpoint format_from (st : fmt_state) (num : numbering) (template : string)
  : result string :=
  match template with
  | EmptyString =>
      match st with
      | InText => Return ""
      | _ => Raise ValueError
      end
  | String c t =>
      match st with
      | InText =>
          if Ascii.eqb c "{" then format_from AfterOpen num t
          else if Ascii.eqb c "}" then format_from AfterClose num t
          else result_map (String c) (format_from InText num t)
      | AfterOpen =>
          if Ascii.eqb c "{" then
            result_map (String c) (format_from InText num t)
          else if Ascii.eqb c "}" then
            match num with
            | Unset => field 0 (format_from InText (Automatic 1) t)
            | Automatic n => field n (format_from InText (Automatic (S n)) t)
            | Manual => Raise ValueError
            end
          else
            match digit_of c with
            | Some k => format_from (InIndex k) num t
            | None => Raise ValueError
            end
      | InIndex n =>
          if Ascii.eqb c "}" then
            match num with
            | Automatic _ => Raise ValueError
            | _ => field n (format_from InText Manual t)
            end
          else
            match digit_of c with
            | Some k => format_from (InIndex (10 * n + k)%nat) num t
            | None => Raise ValueError
            end
      | AfterClose =>
          if Ascii.eqb c "}" then
            result_map (String c) (format_from InText num t)
          else Raise ValueError
      end
  end.
End Format.

(** [template.format(a0, a1, ...)] with [args = [a0; a1; ...]]. *)
Definition format {rt : Runtime} (template : string) (args : list value)
  : result string :=
  format_from args InText Unset template.

(** ** The network and the daemon *)

Inductive http_method : Type := GET | POST.

(** A request as [urlopen] receives it.  [data] is the content whose
    [json.dumps(...).encode('utf-8')] is the body. *)
Record request : Type := {
  method : http_method;
  full_url : string;
  data : option value;
  headers : list (string * string)
}.

(** What [json.loads] makes of a decoded body. *)
Inductive text : Type :=
| NotJson
| JsonText (v : value).

(** What [.decode('utf-8')] makes of the bytes read from a response. *)
Inductive body : Type :=
| NotUtf8
| Utf8 (t : text).

(** What [urlopen(...).read()] does with a request: it raises ([URLError]
    when the daemon cannot be reached, [HTTPError] on an error status), or
    it gives the body of the response. *)
Inductive reply : Type :=
| NoResponse (e : exn)
| Response (b : body).

(** The daemon is a black box: its reply may depend on the request and on
    every request it has received before. *)
Class Daemon : Type := {
  respond : list request -> request -> reply
}.

(** ** Methods as state-passing functions

    A method of a class whose instances are [Self] takes the receiver and
    the requests sent so far (oldest first) and gives its result, the
    receiver and the requests sent afterwards. *)
Definition M (Self A : Type) : Type :=
  Self -> list request -> result A * Self * list request.

Definition ret {Self A : Type} (a : A) : M Self A :=
  fun self sent => (Return a, self, sent).

Definition bind {Self A B : Type} (m : M Self A) (k : A -> M Self B)
  : M Self B :=
  fun self sent =>
    match m self sent with
    | (Return a, self', sent') => k a self' sent'
    | (Raise e, self', sent') => (Raise e, self', sent')
    end.

Definition lift {Self A : Type} (r : result A) : M Self A :=
  fun self sent => (r, self, sent).

Definition this {Self : Type} : M Self Self :=
  fun self sent => (Return self, self, sent).

Definition assign {Self : Type} (f : Self -> Self) : M Self unit :=
  fun self sent => (Return tt, f self, sent).

(** Run a method of another object [obj]; the caller keeps no reference to
    a changed [obj] (the client's [Goatd] methods change nothing). *)
Definition call {Self Obj A : Type} (obj : Obj) (m : M Obj A) : M Self A :=
  fun self sent =>
    match m obj sent with
    | (r, _, sent') => (r, self, sent')
    end.

Declare Scope method_scope.
Delimit Scope method_scope with method.
Notation "x <- m ;; k" := (bind m (fun x => k))
  (at level 61, m at next level, right associativity) : method_scope.
Notation "m ;; k" := (bind m (fun _ => k))
  (at level 61, right associativity) : method_scope.
Open Scope method_scope.

Definition outcome {Self A : Type} (x : result A * Self * list request)
  : result A := fst (fst x).
Definition receiver {Self A : Type} (x : result A * Self * list request)
  : Self := snd (fst x).
Definition requests {Self A : Type} (x : result A * Self * list request)
  : list request := snd x.

Definition urlopen {Self : Type} {dm : Daemon} (r : request) : M Self body :=
  fun self sent =>
    (match respond sent r with
     | NoResponse e => Raise e
     | Response b => Return b
     end, self, (sent ++ [r])%list).

Definition decode_utf8 (b : body) : result text :=
  match b with
  | NotUtf8 => Raise UnicodeDecodeError
  | Utf8 t => Return t
  end.

Definition json_loads (t : text) : result value :=
  match t with
  | NotJson => Raise JSONDecodeError
  | JsonText v => Return v
  end.

(** ** class Goatd *)

Module Goatd.
Record t : Type := {
  host : string;
  port : Z
}.

(** [Goatd()] with the default arguments of [__init__]. *)
Definition default : t := {| host := "localhost"; port := 2222 |}.

Section Methods.
Context {rt : Runtime} {dm : Daemon}.

Definition url (endpoint : string) : M t string :=
  self <- this ;;
  lift (format "http://{0}:{1}{2}"
          [VStr (host self); VInt (port self); VStr endpoint]).

Definition get (endpoint : string) : M t value :=
  u <- url endpoint ;;
  response <- urlopen {| method := GET; full_url := u;
                         data := None; headers := [] |} ;;
  json_body <- lift (decode_utf8 response) ;;
  lift (json_loads json_body).

Definition post (content : value) (endpoint : string) : M t value :=
  u <- url endpoint ;;
  let post_content := Some content in
  let headers := [("Content-Type", "application/json")] in
  response <- urlopen {| method := POST; full_url := u;
                         data := post_content; headers := headers |} ;;
  json_body <- lift (decode_utf8 response) ;;
  lift (json_loads json_body).

Definition version : M t value :=
  content <- get "/" ;;
  goatd <- lift (py_get content "goatd") ;;
  lift (py_get goatd "version").
End Methods.
End Goatd.

(** ** The value types the client builds *)

(** Modelled from the spec: the classes [Bearing] (goatdclient/bearing.py)
    and [Point] (goatdclient/point.py) are consumed types whose code is not
    at hand.  An instance is represented by the arguments it was constructed
    from; how [Bearing] normalises its degrees is external. *)
Inductive Bearing : Type := mkBearing (degrees : value).
Inductive Point : Type := mkPoint (lat lon : value).

(** [Wind = namedtuple('Wind', ['absolute', 'speed', 'apparent'])]. *)
Record Wind : Type := mkWind {
  absolute : Bearing;
  speed : value;
  apparent : Bearing
}.

(** ** class Goat *)

Module Goat.
Record t : Type := {
  goatd : Goatd.t;
  auto_update : bool;
  _cached_goat : value
}.

Definition __init__ (goatd : option Goatd.t) (auto_update : bool) : t :=
  {| goatd := match goatd with
              | None => Goatd.default
              | Some g => g
              end;
     auto_update := auto_update;
     _cached_goat := VDict [] |}.

Definition set_cached_goat (snapshot : value) (self : t) : t :=
  {| goatd := goatd self;
     auto_update := auto_update self;
     _cached_goat := snapshot |}.

Section Methods.
Context {rt : Runtime} {dm : Daemon}.

Definition update : M t unit :=
  self <- this ;;
  snapshot <- call (goatd self) (Goatd.get "/goat") ;;
  assign (set_cached_goat snapshot).

Definition _auto_update {A : Type} (f : M t A) : M t A :=
  self <- this ;;
  (if auto_update self then update else ret tt) ;;
  f.

(** The five properties.  Each is [property(_auto_update(f))]; the
    decorated function [f] is kept under the name of the property with
    the suffix [_f]. *)
Definition heading_f : M t Bearing :=
  self <- this ;;
  let content := _cached_goat self in
  h <- lift (py_get content "heading") ;;
  f <- lift (py_float h) ;;
  ret (mkBearing (VFloat f)).

Definition heading : M t Bearing := _auto_update heading_f.

Definition wind_f : M t Wind :=
  self <- this ;;
  content <- lift (py_get (_cached_goat self) "wind") ;;
  a <- lift (py_get content "absolute") ;;
  s <- lift (py_get content "speed") ;;
  ap <- lift (py_get content "apparent") ;;
  ret (mkWind (mkBearing a) s (mkBearing ap)).

Definition wind : M t Wind := _auto_update wind_f.

Definition position_f : M t Point :=
  self <- this ;;
  let content := _cached_goat self in
  p <- lift (py_get content "position") ;;
  ll <- lift (unpack2 p) ;;
  ret (mkPoint (fst ll) (snd ll)).

Definition position : M t Point := _auto_update position_f.

Definition set_rudder (angle : value) : M t value :=
  angle <- lift (py_float angle) ;;
  v <- lift (py_float (VFloat angle)) ;;
  self <- this ;;
  request <- call (goatd self)
               (Goatd.post (VDict [("value", VFloat v)]) "/rudder") ;;
  lift (py_get request "result").

Definition target_rudder_angle_f : M t float :=
  self <- this ;;
  let content := _cached_goat self in
  a <- lift (py_get content "rudder_angle") ;;
  lift (py_float a).

Definition target_rudder_angle : M t float :=
  _auto_update target_rudder_angle_f.

Definition set_sail (angle : value) : M t value :=
  angle <- lift (py_float angle) ;;
  v <- lift (py_float (VFloat angle)) ;;
  self <- this ;;
  request <- call (goatd self)
               (Goatd.post (VDict [("value", VFloat v)]) "/sail") ;;
  lift (py_get request "result").

Definition target_sail_angle_f : M t float :=
  self <- this ;;
  let content := _cached_goat self in
  a <- lift (py_get content "sail_angle") ;;
  lift (py_float a).

Definition target_sail_angle : M t float :=
  _auto_update target_sail_angle_f.
End Methods.
End Goat.

(** ** class Behaviour *)

Module Behaviour.
Record t : Type := {
  goatd : Goatd.t
}.

Definition __init__ (goatd : option Goatd.t) : t :=
  {| goatd := match goatd with
              | None => Goatd.default
              | Some g => g
              end |}.

Section Methods.
Context {rt : Runtime} {dm : Daemon}.

Definition start (name : value) : M t value :=
  self <- this ;;
  d <- call (goatd self)
         (Goatd.post (VDict [("active", name)]) "/behaviours") ;;
  current <- lift (py_get d "active") ;;
  if is_not_None current then
    s <- lift (format "started {}" [current]) ;;
    ret (VStr s)
  else
    ret (VStr "no behaviour running").

(** The body is the bare call [self.start(None)]: its value is dropped
    and the method returns [None]. *)
Definition stop : M t value :=
  start VNone ;;
  ret VNone.
End Methods.
End Behaviour.

(** ** Module-level queries *)

Section Queries.
Context {rt : Runtime} {dm : Daemon}.

Definition get_home_position (goatd : option Goatd.t)
  : M unit (option Point) :=
  let goatd := match goatd with
               | None => Goatd.default
               | Some g => g
               end in
  content <- call goatd (Goatd.get "/waypoints") ;;
  home <- lift (py_get_or content "home" VNone) ;;
  if is_not_None home then
    ll <- lift (unpack2 home) ;;
    ret (Some (mkPoint (fst ll) (snd ll)))
  else
    ret None.
End Queries.

(** ** Vocabulary of the properties *)

(** The string the documentation writes [http://{host}:{port}{path}]. *)
Definition url_of (g : Goatd.t) (path : string) : string :=
  "http://" ++ Goatd.host g ++ ":" ++ str_of_int (Goatd.port g) ++ path.

(** The integer a decimal numeral denotes, read by the Standard Library's
    reader of decimal strings: digits, most significant first, after an
    optional ["-"]. *)
Definition numeral_value (s : string) : option Z :=
  option_map Z.of_int (NilZero.int_of_string s).

(** The numeral is written the one way [str] writes an integer: at least
    one digit, no zero in front of another digit, no ["-0"]. *)
Definition canonical_numeral (s : string) : bool :=
  match s with
  | EmptyString => false
  | String "0" (String _ _) => false
  | String "-" EmptyString => false
  | String "-" (String "0" _) => false
  | _ => true
  end.

Definition get_request (g : Goatd.t) (path : string) : request :=
  {| method := GET; full_url := url_of g path; data := None; headers := [] |}.

Definition post_request (g : Goatd.t) (content : value) (path : string)
  : request :=
  {| method := POST; full_url := url_of g path; data := Some content;
     headers := [("Content-Type", "application/json")] |}.

(** What a caller gets out of a reply once it is read, decoded and parsed. *)
Definition fetched (r : reply) : result value :=
  match r with
  | NoResponse e => Raise e
  | Response NotUtf8 => Raise UnicodeDecodeError
  | Response (Utf8 NotJson) => Raise JSONDecodeError
  | Response (Utf8 (JsonText v)) => Return v
  end.

(** A reply that carries the JSON value [v]. *)
Definition json_reply (v : value) : reply := Response (Utf8 (JsonText v)).

(** A Goat on the default transport that holds [snapshot] and refreshes
    only on demand. *)
Definition manual_goat (snapshot : value) : Goat.t :=
  Goat.set_cached_goat snapshot (Goat.__init__ None false).

(** The value the function under a property computes from a snapshot. *)
Definition of_snapshot {A : Type} (f : M Goat.t A) (snapshot : value)
  : result A :=
  outcome (f (manual_goat snapshot) []).

(** A function under a property reads the cached snapshot and nothing
    else: it sends no request and leaves the object as it is. *)
Definition reads_cache_only {A : Type} (f : M Goat.t A) : Prop :=
  forall (g : Goat.t) (sent : list request),
    f g sent = (of_snapshot f (Goat._cached_goat g), g, sent).

(** The one request of a refresh. *)
Definition goat_request (g : Goat.t) : request :=
  get_request (Goat.goatd g) "/goat".

(** [prop] is the function [f] under the auto-update policy: with the flag
    set, one GET of [/goat] is sent, and [f] reads the snapshot that came
    back (a failed GET is the failure of the read, and nothing is swapped);
    with the flag clear nothing is sent and [f] reads the snapshot held. *)
Definition reads_through_policy {rt : Runtime} {dm : Daemon} {A : Type}
  (prop f : M Goat.t A) : Prop :=
  forall (g : Goat.t) (sent : list request),
    if Goat.auto_update g then
      requests (prop g sent) = (sent ++ [goat_request g])%list /\
      match fetched (respond sent (goat_request g)) with
      | Return snapshot =>
          outcome (prop g sent) = of_snapshot f snapshot /\
          receiver (prop g sent) = Goat.set_cached_goat snapshot g
      | Raise e =>
          outcome (prop g sent) = Raise e /\
          receiver (prop g sent) = g
      end
    else
      requests (prop g sent) = sent /\
      receiver (prop g sent) = g /\
      outcome (prop g sent) = of_snapshot f (Goat._cached_goat g).

(** ** Data of the examples *)

(** A runtime for the examples, none of which parses a string as a float
    or prints a float, a list or a dict. *)
Definition bare_runtime : Runtime :=
  {| str_to_float := fun _ => None; repr := fun _ => "" |}.

(** A daemon that gives the same reply to every request. *)
Definition always (r : reply) : Daemon := {| respond := fun _ _ => r |}.

(** The [/goat] response of the specification's round trip; [-0.1] is the
    binary64 value nearest to it, as [json.loads] reads it. *)
Definition goat_snapshot : value :=
  VDict [("heading", VFloat 90);
         ("wind", VDict [("absolute", VFloat 45);
                         ("speed", VFloat 5);
                         ("apparent", VFloat 30)]);
         ("position", VList [VFloat 51.5; VFloat (-0.1)]);
         ("rudder_angle", VFloat (-10));
         ("sail_angle", VFloat 20)].

(** The daemon that answers every request with that snapshot. *)
Definition snapshot_daemon : Daemon := always (json_reply goat_snapshot).

(** The reply whose body is the JSON object [d]. *)
Definition object_reply (d : list (string * value)) : reply :=
  json_reply (VDict d).

(** A Goat on the default transport, just constructed, that refreshes on
    every read. *)
Definition fresh_goat : Goat.t := Goat.__init__ None true.

Definition default_behaviour : Behaviour.t := Behaviour.__init__ None.

(** ** The rest of the client *)

(** [x is a dict]. *)
Definition is_dict (x : value) : bool :=
  match x with
  | VDict _ => true
  | _ => false
  end.

(** [list(x.keys())]: only a dict has [keys]. *)
Definition py_keys (x : value) : result (list value) :=
  match x with
  | VDict d => Return (map (fun kv => VStr (fst kv)) d)
  | _ => Raise AttributeError
  end.

(** The items [for item in x] goes through. *)
Definition py_iter (x : value) : result (list value) :=
  match x with
  | VList l => Return l
  | VStr s => Return (chars s)
  | VDict d => Return (map (fun kv => VStr (fst kv)) d)
  | VNone | VBool _ | VInt _ | VFloat _ => Raise TypeError
  end.

(** Modelled from the spec: [Point] is built from exactly a latitude and a
    longitude, so that a call of [Point] on the unpacked items of [coords]
    with another number of items is the [TypeError] of a call with the wrong
    number of arguments. *)
Definition Point_star (coords : value) : result Point :=
  match py_iter coords with
  | Return [lat; lon] => Return (mkPoint lat lon)
  | Return _ => Raise TypeError
  | Raise e => Raise e
  end.

(** [[f(x) for x in l]]: the items in order, up to the first that raises. *)
Fixpoint comprehension {A B : Type} (f : A -> result B) (l : list A)
  : result (list B) :=
  match l with
  | [] => Return []
  | x :: l' =>
      match f x with
      | Return y => result_map (cons y) (comprehension f l')
      | Raise e => Raise e
      end
  end.

(** A method that prints works on its receiver and on what has been printed
    so far, one entry for each call of [print]. *)
Definition print {Self : Type} {rt : Runtime} (x : value)
  : M (Self * list string) unit :=
  fun self sent =>
    (Return tt, (fst self, (snd self ++ [py_str x])%list), sent).

Definition silently {Self A : Type} (m : M Self A)
  : M (Self * list string) A :=
  fun self sent =>
    match m (fst self) sent with
    | (r, self', sent') => (r, (self', snd self), sent')
    end.

Section Rest.
Context {rt : Runtime} {dm : Daemon}.

(** [Goatd.quit]. *)
Definition quit : M (Goatd.t * list string) value :=
  content <- silently (Goatd.post (VDict [("quit", VBool true)]) "/") ;;
  print content ;;
  ret VNone.

(** [Behaviour._get_behaviour_data]. *)
Definition _get_behaviour_data : M Behaviour.t value :=
  self <- this ;;
  call (Behaviour.goatd self) (Goatd.get "/behaviours").

(** [Behaviour.list]. *)
Definition Behaviour_list : M Behaviour.t value :=
  data <- _get_behaviour_data ;;
  behaviours <- lift (py_get data "behaviours") ;;
  names <- lift (py_keys behaviours) ;;
  ret (VList names).

Definition get_current_waypoints (goatd : option Goatd.t)
  : M unit (list Point) :=
  let goatd := match goatd with
               | None => Goatd.default
               | Some g => g
               end in
  content <- call goatd (Goatd.get "/waypoints") ;;
  waypoints <- lift (py_get content "waypoints") ;;
  items <- lift (py_iter waypoints) ;;
  lift (comprehension Point_star items).
End Rest.

(** ** Vocabulary of the further properties *)

(** [g] with its flag set to [b]. *)
Definition with_auto_update (b : bool) (g : Goat.t) : Goat.t :=
  {| Goat.goatd := Goat.goatd g;
     Goat.auto_update := b;
     Goat._cached_goat := Goat._cached_goat g |}.

(** A call sends nothing. *)
Definition sends_nothing {Self A : Type} (m : M Self A) : Prop :=
  forall (self : Self) (sent : list request), requests (m self sent) = sent.

(** A call sends the request [req] and no other, whatever comes back. *)
Definition sends_exactly {Self A : Type} (m : M Self A)
  (req : Self -> request) : Prop :=
  forall (self : Self) (sent : list request),
    requests (m self sent) = (sent ++ [req self])%list.

(** A call on a Goat sends the request of a refresh when the flag is set,
    and nothing when it is clear. *)
Definition sends_when_auto {A : Type} (m : M Goat.t A) : Prop :=
  forall (g : Goat.t) (sent : list request),
    requests (m g sent)
    = if Goat.auto_update g then (sent ++ [goat_request g])%list else sent.

(** A setter, given by [m] and the request [req] it makes of a float, sends
    that request when [float()] accepts the angle, and nothing when it
    rejects it. *)
Definition sends_when_accepted {rt : Runtime} {A : Type}
  (m : value -> M Goat.t A) (req : float -> Goat.t -> request) : Prop :=
  forall (angle : value) (g : Goat.t) (sent : list request),
    requests (m angle g sent)
    = match py_float angle with
      | Return f => (sent ++ [req f g])%list
      | Raise _ => sent
      end.

(** The request of [quit]. *)
Definition quit_request (g : Goatd.t) : request :=
  post_request g (VDict [("quit", VBool true)]) "/".

(** A printing call leaves the object it is called on as it found it. *)
Definition keeps_object {Self A : Type} (m : M (Self * list string) A)
  : Prop :=
  forall (self : Self) (printed : list string) (sent : list request),
    fst (receiver (m (self, printed) sent)) = self.

(** A call leaves its receiver as it found it. *)
Definition keeps_receiver {Self A : Type} (m : M Self A) : Prop :=
  forall (self : Self) (sent : list request), receiver (m self sent) = self.

(** A call on a Goat may swap the snapshot, and nothing else. *)
Definition keeps_transport_and_flag {A : Type} (m : M Goat.t A) : Prop :=
  forall (g : Goat.t) (sent : list request),
    Goat.goatd (receiver (m g sent)) = Goat.goatd g /\
    Goat.auto_update (receiver (m g sent)) = Goat.auto_update g.

(** The failure of the request [req] is the failure of the call, which
    changes nothing but the list of requests. *)
Definition propagates {Self A : Type} {dm : Daemon} (m : M Self A)
  (req : Self -> request) : Prop :=
  forall (self : Self) (sent : list request) (e : exn),
    fetched (respond sent (req self)) = Raise e ->
    m self sent = (Raise e, self, (sent ++ [req self])%list).

(** A response to [req] that is JSON but not an object makes the call raise
    [AttributeError], once the request is out. *)
Definition rejects_non_object {Self A : Type} {dm : Daemon} (m : M Self A)
  (req : Self -> request) : Prop :=
  forall (self : Self) (sent : list request) (content : value),
    fetched (respond sent (req self)) = Return content ->
    is_dict content = false ->
    m self sent = (Raise AttributeError, self, (sent ++ [req self])%list).

(** The waypoint [[lat, lon]] and the Point it becomes. *)
Definition pair_entry (p : value * value) : value := VList [fst p; snd p].
Definition pair_point (p : value * value) : Point := mkPoint (fst p) (snd p).

(** The transport a constructor or a query uses for its optional argument. *)
Definition transport_of (goatd : option Goatd.t) : Goatd.t :=
  match goatd with
  | None => Goatd.default
  | Some g => g
  end.

(** The bodies of the setters' requests and the requests themselves. *)
Definition rudder_request (f : float) (g : Goat.t) : request :=
  post_request (Goat.goatd g) (VDict [("value", VFloat f)]) "/rudder".

Definition sail_request (f : float) (g : Goat.t) : request :=
  post_request (Goat.goatd g) (VDict [("value", VFloat f)]) "/sail".

Definition start_request (name : value) (b : Behaviour.t) : request :=
  post_request (Behaviour.goatd b) (VDict [("active", name)]) "/behaviours".

Definition behaviours_request (b : Behaviour.t) : request :=
  get_request (Behaviour.goatd b) "/behaviours".

Definition waypoints_request (goatd : option Goatd.t) : request :=
  get_request (transport_of goatd) "/waypoints".

(** A Behaviour controller on the transport [g]. *)
Definition behaviour_on (g : Goatd.t) : Behaviour.t :=
  Behaviour.__init__ (Some g).

(** * Properties *)

(** ** Strings, dicts and the transport *)

Lemma append_empty_r (s : string) : s ++ "" = s.
Proof. induction s as [|c s IH]; cbn; [reflexivity | now rewrite IH]. Qed.

Lemma dict_get_absent (d : list (string * value)) (key : string)
  (default : value) :
  dict_mem d key = false -> dict_get d key default = default.
Proof.
  unfold dict_mem.
  induction d as [|[k v] d IH]; cbn; intros H; [reflexivity|].
  apply orb_false_elim in H as [Hk Hd].
  rewrite Hk. now apply IH.
Qed.

(** The decimal digits of a positive number do not start with a zero. *)
Lemma to_uint_no_leading_zero (q : positive) (d : uint) :
  Pos.to_uint q <> D0 d.
Proof.
  intros Hd.
  pose proof (DecimalPos.Unsigned.to_of (Pos.to_uint q)) as Hnorm.
  rewrite DecimalPos.Unsigned.of_to in Hnorm. cbn in Hnorm.
  destruct (uint_eq_dec (nzhead (Pos.to_uint q)) Nil) as [Hnil|Hnil].
  - apply unorm_0 in Hnil. rewrite Hnil in Hnorm.
    now apply (DecimalPos.Unsigned.to_uint_nonzero q).
  - rewrite (unorm_nzhead _ Hnil) in Hnorm.
    apply (nzhead_nonzero (Pos.to_uint q) d). now rewrite <- Hnorm.
Qed.

(** What [str] writes for an integer reads back as that integer. *)
Lemma numeral_value_str_of_int (z : Z) :
  numeral_value (str_of_int z) = Some z.
Proof.
  unfold numeral_value, str_of_int.
  rewrite NilZero.isi.
  - cbn. now rewrite DecimalZ.of_to.
  - destruct z as [|q|q]; cbn; intros [= H];
      now apply (DecimalPos.Unsigned.to_uint_nonnil q).
  - destruct z as [|q|q]; cbn; intros [= H];
      now apply (DecimalPos.Unsigned.to_uint_nonnil q).
Qed.

Lemma canonical_str_of_int (z : Z) :
  canonical_numeral (str_of_int z) = true.
Proof.
  unfold str_of_int. destruct z as [|q|q]; cbn; [reflexivity| |].
  - pose proof (to_uint_no_leading_zero q) as Hzero.
    destruct (Pos.to_uint q) as [|d|d|d|d|d|d|d|d|d|d]; cbn;
      try reflexivity.
    now contradiction (Hzero d).
  - pose proof (DecimalPos.Unsigned.to_uint_nonnil q) as Hnil.
    pose proof (to_uint_no_leading_zero q) as Hzero.
    destruct (Pos.to_uint q) as [|d|d|d|d|d|d|d|d|d|d]; cbn;
      try reflexivity; [now contradiction Hnil | now contradiction (Hzero d)].
Qed.

Section Transport.
Context {rt : Runtime} {dm : Daemon}.

Lemma format_url (h : string) (p : Z) (path : string) :
  format "http://{0}:{1}{2}" [VStr h; VInt p; VStr path]
  = Return ("http://" ++ h ++ ":" ++ str_of_int p ++ path).
Proof.
  unfold format. cbn. unfold field. cbn.
  now rewrite append_empty_r.
Qed.

Lemma url_run (g : Goatd.t) (path : string) (sent : list request) :
  Goatd.url path g sent = (Return (url_of g path), g, sent).
Proof.
  unfold Goatd.url, bind, this, lift.
  now rewrite format_url.
Qed.

Lemma get_run (g : Goatd.t) (path : string) (sent : list request) :
  Goatd.get path g sent
  = (fetched (respond sent (get_request g path)), g,
     (sent ++ [get_request g path])%list).
Proof.
  unfold Goatd.get, bind. rewrite url_run.
  unfold urlopen, lift, fetched, get_request.
  destruct (respond sent _) as [e|[|[|v]]]; reflexivity.
Qed.

Lemma post_run (g : Goatd.t) (content : value) (path : string)
  (sent : list request) :
  Goatd.post content path g sent
  = (fetched (respond sent (post_request g content path)), g,
     (sent ++ [post_request g content path])%list).
Proof.
  unfold Goatd.post, bind. rewrite url_run.
  unfold urlopen, lift, fetched, post_request.
  destruct (respond sent _) as [e|[|[|v]]]; reflexivity.
Qed.

(** C6: [url(path)] is exactly [http://{host}:{port}{path}], whatever the
    host string, the port integer and the path string are.  The host and
    the path stand in it as they are given; between them stands the port
    as its decimal numeral, the canonical one, which reads back as the
    port; nothing is sent.  So the port 8080 on [example.org] gives
    [http://example.org:8080/goat] for the path [/goat]. *)
Theorem url_is_host_port_path (h : string) (p : Z) (path : string)
  (sent : list request) :
  let g := {| Goatd.host := h; Goatd.port := p |} in
  let example := {| Goatd.host := "example.org"; Goatd.port := 8080 |} in
  (exists port_text : string,
     numeral_value port_text = Some p /\
     canonical_numeral port_text = true /\
     Goatd.url path g sent
     = (Return ("http://" ++ h ++ ":" ++ port_text ++ path), g, sent)) /\
  Goatd.url path g sent
  = (Return ("http://" ++ h ++ ":" ++ str_of_int p ++ path), g, sent) /\
  Goatd.url "/goat" example sent
  = (Return "http://example.org:8080/goat", example, sent).
Proof.
  cbv zeta. split; [|split].
  - exists (str_of_int p). split; [|split].
    + apply numeral_value_str_of_int.
    + apply canonical_str_of_int.
    + apply url_run.
  - apply url_run.
  - rewrite url_run. reflexivity.
Qed.
End Transport.

(** ** The cached snapshot of a Goat *)

Section Vehicle.
Context {rt : Runtime} {dm : Daemon}.

Lemma update_run (g : Goat.t) (sent : list request) :
  Goat.update g sent
  = (match fetched (respond sent (goat_request g)) with
     | Return snapshot => (Return tt, Goat.set_cached_goat snapshot g)
     | Raise e => (Raise e, g)
     end, (sent ++ [goat_request g])%list).
Proof.
  unfold Goat.update, bind, this, call, assign, goat_request.
  rewrite get_run.
  destruct (fetched _); reflexivity.
Qed.

Lemma auto_update_on {A : Type} (f : M Goat.t A) (g : Goat.t)
  (sent : list request) :
  Goat.auto_update g = true ->
  Goat._auto_update f g sent
  = match fetched (respond sent (goat_request g)) with
    | Return snapshot =>
        f (Goat.set_cached_goat snapshot g) (sent ++ [goat_request g])%list
    | Raise e => (Raise e, g, (sent ++ [goat_request g])%list)
    end.
Proof.
  intros Hau. unfold Goat._auto_update, bind, this.
  rewrite Hau, update_run.
  destruct (fetched _); reflexivity.
Qed.

Lemma auto_update_off {A : Type} (f : M Goat.t A) (g : Goat.t)
  (sent : list request) :
  Goat.auto_update g = false -> Goat._auto_update f g sent = f g sent.
Proof.
  intros Hau. unfold Goat._auto_update, bind, this, ret.
  now rewrite Hau.
Qed.

Ltac read_cache :=
  intros g sent; unfold of_snapshot, manual_goat, outcome;
  cbv beta delta [Goat.heading_f Goat.wind_f Goat.position_f
                  Goat.target_rudder_angle_f Goat.target_sail_angle_f
                  bind this lift ret];
  cbn [Goat._cached_goat Goat.set_cached_goat fst snd];
  repeat match goal with
         | |- context [match ?r with Return _ => _ | Raise _ => _ end] =>
             destruct r; cbn [fst snd]
         end;
  reflexivity.

Lemma heading_reads_cache : reads_cache_only Goat.heading_f.
Proof. read_cache. Qed.

Lemma wind_reads_cache : reads_cache_only Goat.wind_f.
Proof. read_cache. Qed.

Lemma position_reads_cache : reads_cache_only Goat.position_f.
Proof. read_cache. Qed.

Lemma target_rudder_angle_reads_cache :
  reads_cache_only Goat.target_rudder_angle_f.
Proof. read_cache. Qed.

Lemma target_sail_angle_reads_cache :
  reads_cache_only Goat.target_sail_angle_f.
Proof. read_cache. Qed.

Lemma policy_of_reads_cache {A : Type} (f : M Goat.t A) :
  reads_cache_only f -> reads_through_policy (Goat._auto_update f) f.
Proof.
  intros Hf g sent.
  destruct (Goat.auto_update g) eqn:Hau.
  - rewrite (auto_update_on f g sent Hau).
    destruct (fetched _) as [snapshot|e]; [rewrite Hf|]; cbn; auto.
  - rewrite (auto_update_off f g sent Hau), Hf. cbn. auto.
Qed.

(** C1: each of the properties [heading], [wind], [position],
    [target_rudder_angle] and [target_sail_angle] follows the auto-update
    policy.  When [auto_update] is true a read sends exactly one request,
    the GET of [/goat], and then reads the snapshot that came back; when
    it is false a read sends nothing, leaves the object alone and reads
    the snapshot already held. *)
Theorem properties_follow_auto_update :
  reads_through_policy Goat.heading Goat.heading_f /\
  reads_through_policy Goat.wind Goat.wind_f /\
  reads_through_policy Goat.position Goat.position_f /\
  reads_through_policy Goat.target_rudder_angle Goat.target_rudder_angle_f /\
  reads_through_policy Goat.target_sail_angle Goat.target_sail_angle_f.
Proof.
  repeat split; apply policy_of_reads_cache.
  - exact heading_reads_cache.
  - exact wind_reads_cache.
  - exact position_reads_cache.
  - exact target_rudder_angle_reads_cache.
  - exact target_sail_angle_reads_cache.
Qed.

(** C2: [update()] sends the GET of [/goat]; when the request fails, or
    the body is not UTF-8, or the text is not JSON, the failure reaches
    the caller and the object, cached snapshot included, is exactly what
    it was; when a JSON value comes back the cached snapshot becomes that
    value, whatever the old snapshot held, and nothing else changes. *)
Theorem update_replaces_or_keeps (g : Goat.t) (sent : list request) :
  let after := Goat.update g sent in
  requests after = (sent ++ [goat_request g])%list /\
  match respond sent (goat_request g) with
  | NoResponse e =>
      outcome after = Raise e /\ receiver after = g
  | Response NotUtf8 =>
      outcome after = Raise UnicodeDecodeError /\ receiver after = g
  | Response (Utf8 NotJson) =>
      outcome after = Raise JSONDecodeError /\ receiver after = g
  | Response (Utf8 (JsonText snapshot)) =>
      outcome after = Return tt /\
      receiver after = {| Goat.goatd := Goat.goatd g;
                          Goat.auto_update := Goat.auto_update g;
                          Goat._cached_goat := snapshot |}
  end.
Proof.
  cbv zeta. rewrite update_run. split; [reflexivity|].
  destruct (respond sent (goat_request g)) as [e|[|[|snapshot]]];
    cbn; split; reflexivity.
Qed.

(** C8: on the snapshot of the round trip, [heading] is the Bearing of
    90.0, [wind] is (Bearing of 45.0, 5.0, Bearing of 30.0), [position]
    is the Point (51.5, -0.1), [target_rudder_angle] is -10.0 and
    [target_sail_angle] is 20.0: both when the snapshot is the one held
    and nothing is refreshed, and when it is the response to the GET of
    an automatic refresh. *)
Theorem snapshot_round_trip (gd : Goatd.t) (sent : list request) :
  let north_east := mkWind (mkBearing (VFloat 45)) (VFloat 5)
                      (mkBearing (VFloat 30)) in
  (let g := {| Goat.goatd := gd; Goat.auto_update := false;
               Goat._cached_goat := goat_snapshot |} in
   outcome (Goat.heading g sent) = Return (mkBearing (VFloat 90)) /\
   outcome (Goat.wind g sent) = Return north_east /\
   outcome (Goat.position g sent)
   = Return (mkPoint (VFloat 51.5) (VFloat (-0.1))) /\
   outcome (Goat.target_rudder_angle g sent) = Return (-10)%float /\
   outcome (Goat.target_sail_angle g sent) = Return 20%float) /\
  (forall old : value,
     respond sent (get_request gd "/goat") = json_reply goat_snapshot ->
     let g := {| Goat.goatd := gd; Goat.auto_update := true;
                 Goat._cached_goat := old |} in
     outcome (Goat.heading g sent) = Return (mkBearing (VFloat 90)) /\
     outcome (Goat.wind g sent) = Return north_east /\
     outcome (Goat.position g sent)
     = Return (mkPoint (VFloat 51.5) (VFloat (-0.1))) /\
     outcome (Goat.target_rudder_angle g sent) = Return (-10)%float /\
     outcome (Goat.target_sail_angle g sent) = Return 20%float).
Proof.
  cbv zeta. split.
  - unfold Goat.heading, Goat.wind, Goat.position,
      Goat.target_rudder_angle, Goat.target_sail_angle.
    rewrite !auto_update_off by reflexivity.
    repeat split; reflexivity.
  - intros old Hreply.
    unfold Goat.heading, Goat.wind, Goat.position,
      Goat.target_rudder_angle, Goat.target_sail_angle.
    rewrite !auto_update_on by reflexivity.
    unfold goat_request. cbn [Goat.goatd]. rewrite Hreply.
    repeat split; reflexivity.
Qed.

(** ** The setters *)

(** C7: for an angle that [float()] accepts, [set_rudder] sends one POST
    to [/rudder] and [set_sail] one POST to [/sail], each with the body
    [{"value": float(angle)}], a float whatever the type of the angle;
    the call returns [response.get('result')] as it is (the failure of
    the POST when it fails), and the Goat, cached snapshot included, is
    left as it was: no refresh happens. *)
Theorem setters_post_float (angle : value) (f : float) (g : Goat.t)
  (sent : list request) :
  py_float angle = Return f ->
  let body := VDict [("value", VFloat f)] in
  let rudder := post_request (Goat.goatd g) body "/rudder" in
  let sail := post_request (Goat.goatd g) body "/sail" in
  Goat.set_rudder angle g sent
  = (match fetched (respond sent rudder) with
     | Return response => py_get response "result"
     | Raise e => Raise e
     end, g, (sent ++ [rudder])%list) /\
  Goat.set_sail angle g sent
  = (match fetched (respond sent sail) with
     | Return response => py_get response "result"
     | Raise e => Raise e
     end, g, (sent ++ [sail])%list).
Proof.
  intros Hfloat. cbv zeta.
  unfold Goat.set_rudder, Goat.set_sail, bind, lift, this, call.
  rewrite Hfloat. cbn [py_float]. rewrite !post_run.
  split.
  - destruct (fetched (respond sent _)); reflexivity.
  - destruct (fetched (respond sent _)); reflexivity.
Qed.

(** C10: for an angle that [float()] rejects, [set_rudder] and [set_sail]
    raise that exception at once: no request is sent and the Goat is
    unchanged. *)
Theorem setters_reject_before_posting (angle : value) (e : exn)
  (g : Goat.t) (sent : list request) :
  py_float angle = Raise e ->
  Goat.set_rudder angle g sent = (Raise e, g, sent) /\
  Goat.set_sail angle g sent = (Raise e, g, sent).
Proof.
  intros Hfloat.
  unfold Goat.set_rudder, Goat.set_sail, bind, lift.
  rewrite Hfloat. split; reflexivity.
Qed.
End Vehicle.

(** ** The version of the daemon *)

Section Version.
Context {rt : Runtime} {dm : Daemon}.

Lemma version_run (g : Goatd.t) (sent : list request) :
  Goatd.version g sent
  = (match fetched (respond sent (get_request g "/")) with
     | Return content =>
         match py_get content "goatd" with
         | Return goatd => py_get goatd "version"
         | Raise e => Raise e
         end
     | Raise e => Raise e
     end, g, (sent ++ [get_request g "/"])%list).
Proof.
  unfold Goatd.version, bind, lift. rewrite get_run.
  destruct (fetched _) as [content|e]; [|reflexivity].
  destruct (py_get content "goatd"); reflexivity.
Qed.

(** C3, amended: when the response to the GET of [/] is an object whose
    [goatd] entry is an object without a [version] key, [version] returns
    [None] and does not raise; when the response is an object without a
    [goatd] key, the second [.get] is applied to [None] and [version]
    raises [AttributeError]. *)
Theorem version_of_partial_shape (g : Goatd.t) (sent : list request)
  (d : list (string * value)) :
  respond sent (get_request g "/") = json_reply (VDict d) ->
  (forall inner : list (string * value),
     dict_get d "goatd" VNone = VDict inner ->
     dict_mem inner "version" = false ->
     outcome (Goatd.version g sent) = Return VNone) /\
  (dict_mem d "goatd" = false ->
   outcome (Goatd.version g sent) = Raise AttributeError).
Proof.
  intros Hreply. rewrite version_run, Hreply.
  unfold outcome, py_get. cbn. split.
  - intros inner Hgoatd Hversion. rewrite Hgoatd. cbn.
    now rewrite dict_get_absent.
  - intros Hgoatd. now rewrite dict_get_absent.
Qed.
End Version.

(** ** Behaviours *)

Section Behaviours.
Context {rt : Runtime} {dm : Daemon}.

Lemma format_started (current : value) :
  format "started {}" [current] = Return ("started " ++ py_str current).
Proof.
  unfold format. cbn. unfold field. cbn.
  now rewrite append_empty_r.
Qed.

Lemma start_run (name : value) (b : Behaviour.t) (sent : list request) :
  let req := post_request (Behaviour.goatd b) (VDict [("active", name)])
               "/behaviours" in
  Behaviour.start name b sent
  = (match fetched (respond sent req) with
     | Return d =>
         match py_get d "active" with
         | Return current =>
             Return (VStr (if is_not_None current
                           then "started " ++ py_str current
                           else "no behaviour running"))
         | Raise e => Raise e
         end
     | Raise e => Raise e
     end, b, (sent ++ [req])%list).
Proof.
  cbv zeta. unfold Behaviour.start, bind, this, call, lift.
  rewrite post_run.
  destruct (fetched _) as [d|e]; [|reflexivity].
  destruct (py_get d "active") as [current|e]; [|reflexivity].
  destruct (is_not_None current); [|reflexivity].
  rewrite format_started. reflexivity.
Qed.

(** C5: [start(name)] sends one POST of [{"active": name}] to
    [/behaviours]; when the response is an object, the result is decided
    by its [active] entry alone: ["started "] followed by that entry as
    [str] prints it when it is not [None], and the literal
    ["no behaviour running"] when it is [None] or missing. *)
Theorem start_reports_active (name : value) (b : Behaviour.t)
  (sent : list request) (d : list (string * value)) :
  let req := post_request (Behaviour.goatd b) (VDict [("active", name)])
               "/behaviours" in
  respond sent req = json_reply (VDict d) ->
  Behaviour.start name b sent
  = (Return (VStr match dict_get d "active" VNone with
                  | VNone => "no behaviour running"
                  | active => "started " ++ py_str active
                  end), b, (sent ++ [req])%list).
Proof.
  cbv zeta. intros Hreply. rewrite start_run. cbv zeta.
  rewrite Hreply. cbn.
  destruct (dict_get d "active" VNone); reflexivity.
Qed.

(** C4, amended: [stop()] does what [start(None)] does, the same single
    POST of [{"active": null}] to [/behaviours], and fails exactly when
    [start(None)] fails, with the same exception; but where
    [start(None)] returns its string, [stop()] returns [None]. *)
Theorem stop_runs_start_and_returns_None (b : Behaviour.t)
  (sent : list request) :
  let req := post_request (Behaviour.goatd b) (VDict [("active", VNone)])
               "/behaviours" in
  requests (Behaviour.stop b sent) = (sent ++ [req])%list /\
  requests (Behaviour.stop b sent) = requests (Behaviour.start VNone b sent) /\
  receiver (Behaviour.stop b sent) = receiver (Behaviour.start VNone b sent) /\
  outcome (Behaviour.stop b sent)
  = match outcome (Behaviour.start VNone b sent) with
    | Return _ => Return VNone
    | Raise e => Raise e
    end.
Proof.
  cbv zeta. unfold Behaviour.stop, bind, ret.
  rewrite start_run. cbv zeta.
  destruct (fetched _) as [d|e]; [|cbn; auto].
  destruct (py_get d "active"); cbn; auto.
Qed.
End Behaviours.

(** ** The home position *)

Section Home.
Context {rt : Runtime} {dm : Daemon}.

(** C9: when the response to the GET of [/waypoints] is an object,
    [get_home_position] returns [None] if it has no [home] key, and the
    Point of the two entries of [home] if [home] is a list of two; the
    first is a result, not an exception. *)
Theorem home_position_is_optional (goatd : option Goatd.t)
  (sent : list request) (d : list (string * value)) :
  let gd := match goatd with
            | None => Goatd.default
            | Some g => g
            end in
  let req := get_request gd "/waypoints" in
  respond sent req = json_reply (VDict d) ->
  (dict_mem d "home" = false ->
   get_home_position goatd tt sent
   = (Return None, tt, (sent ++ [req])%list)) /\
  (forall lat lon : value,
     dict_get d "home" VNone = VList [lat; lon] ->
     get_home_position goatd tt sent
     = (Return (Some (mkPoint lat lon)), tt, (sent ++ [req])%list)).
Proof.
  cbv zeta. intros Hreply.
  unfold get_home_position, bind, call, lift.
  rewrite get_run, Hreply. cbn. split.
  - intros Habsent. now rewrite dict_get_absent.
  - intros lat lon Hhome. now rewrite Hhome.
Qed.
End Home.

(** * The properties at concrete inputs *)

(** ** Builtins *)

Example float_of_ten : float_of_int 10 = Return 10%float.
Proof. reflexivity. Qed.

Example float_of_huge : float_of_int (2 ^ 1024) = Raise OverflowError.
Proof. vm_compute. reflexivity. Qed.

Example format_mixed_numbering :
  format (rt := bare_runtime) "{}{0}" [VNone] = Raise ValueError.
Proof. reflexivity. Qed.

Example format_escaped_braces :
  format (rt := bare_runtime) "{{{}}}" [VInt 7] = Return "{7}".
Proof. reflexivity. Qed.

Example numerals_read :
  numeral_value "8080" = Some 8080 /\ numeral_value "-15" = Some (-15) /\
  numeral_value "08" = Some 8 /\ numeral_value "1x" = None /\
  canonical_numeral "08" = false /\ canonical_numeral "-15" = true.
Proof. repeat split. Qed.

Example url_of_negative_port :
  outcome (Goatd.url (rt := bare_runtime) ""
             {| Goatd.host := "boat"; Goatd.port := -15 |} [])
  = Return "http://boat:-15".
Proof. reflexivity. Qed.

Example url_without_slash :
  outcome (Goatd.url (rt := bare_runtime) "goat" Goatd.default [])
  = Return "http://localhost:2222goat".
Proof. reflexivity. Qed.

(** Before the first refresh the snapshot is the empty dict: a read that
    does not refresh sends nothing and fails on the missing field. *)
Example heading_before_first_refresh :
  Goat.heading (rt := bare_runtime) (dm := snapshot_daemon)
    (Goat.__init__ None false) []
  = (Raise TypeError, Goat.__init__ None false, []).
Proof. reflexivity. Qed.

(** A refresh, then three reads that do not refresh: one request in all. *)
Example one_refresh_many_reads :
  requests ((Goat.update (rt := bare_runtime) (dm := snapshot_daemon) ;;
             Goat.heading (rt := bare_runtime) (dm := snapshot_daemon) ;;
             Goat.wind (rt := bare_runtime) (dm := snapshot_daemon) ;;
             Goat.position (rt := bare_runtime) (dm := snapshot_daemon))
              (Goat.__init__ None false) [])
  = [get_request Goatd.default "/goat"].
Proof. reflexivity. Qed.

(** With the flag set each of the three reads refreshes. *)
Example three_reads_three_refreshes :
  requests ((Goat.heading (rt := bare_runtime) (dm := snapshot_daemon) ;;
             Goat.wind (rt := bare_runtime) (dm := snapshot_daemon) ;;
             Goat.position (rt := bare_runtime) (dm := snapshot_daemon))
              fresh_goat [])
  = [get_request Goatd.default "/goat"; get_request Goatd.default "/goat";
     get_request Goatd.default "/goat"].
Proof. reflexivity. Qed.

(** ** Witnesses *)

(** [version] against [{"goatd": {}}] is [None]; against [{}] it raises. *)
Lemma version_of_partial_shape_witness :
  outcome (Goatd.version (rt := bare_runtime)
             (dm := always (object_reply [("goatd", VDict [])]))
             Goatd.default [])
  = Return VNone /\
  outcome (Goatd.version (rt := bare_runtime)
             (dm := always (object_reply []))
             Goatd.default [])
  = Raise AttributeError.
Proof.
  split.
  - apply (proj1 (version_of_partial_shape
                    (dm := always (object_reply [("goatd", VDict [])]))
                    Goatd.default [] [("goatd", VDict [])] eq_refl)
             [] eq_refl eq_refl).
  - apply (proj2 (version_of_partial_shape
                    (dm := always (object_reply []))
                    Goatd.default [] [] eq_refl) eq_refl).
Defined.

(** [start("tack")] against [{"active": "tack"}], and [start(None)] against
    [{"active": null}]. *)
Lemma start_reports_active_witness :
  outcome (Behaviour.start (rt := bare_runtime)
             (dm := always (object_reply [("active", VStr "tack")]))
             (VStr "tack") default_behaviour [])
  = Return (VStr "started tack") /\
  outcome (Behaviour.start (rt := bare_runtime)
             (dm := always (object_reply [("active", VNone)]))
             VNone default_behaviour [])
  = Return (VStr "no behaviour running").
Proof.
  split.
  - rewrite (start_reports_active
               (dm := always (object_reply [("active", VStr "tack")]))
               (VStr "tack") default_behaviour []
               [("active", VStr "tack")] eq_refl).
    reflexivity.
  - rewrite (start_reports_active
               (dm := always (object_reply [("active", VNone)]))
               VNone default_behaviour [] [("active", VNone)] eq_refl).
    reflexivity.
Defined.

(** [set_rudder(10)] posts [{"value": 10.0}] to [/rudder] and returns the
    [result] of the response. *)
Lemma setters_post_float_witness :
  py_float (rt := bare_runtime) (VInt 10) = Return 10%float /\
  Goat.set_rudder (rt := bare_runtime)
    (dm := always (object_reply [("result", VStr "ok")]))
    (VInt 10) fresh_goat []
  = (Return (VStr "ok"), fresh_goat,
     [{| method := POST; full_url := "http://localhost:2222/rudder";
         data := Some (VDict [("value", VFloat 10)]);
         headers := [("Content-Type", "application/json")] |}]).
Proof.
  split; [reflexivity|].
  apply (proj1 (setters_post_float (rt := bare_runtime)
                  (dm := always (object_reply [("result", VStr "ok")]))
                  (VInt 10) 10%float fresh_goat [] eq_refl)).
Defined.

(** [set_sail(None)] raises [TypeError] and sends nothing. *)
Lemma setters_reject_before_posting_witness :
  py_float (rt := bare_runtime) VNone = Raise TypeError /\
  Goat.set_sail (rt := bare_runtime) (dm := always (object_reply []))
    VNone fresh_goat []
  = (Raise TypeError, fresh_goat, []).
Proof.
  split; [reflexivity|].
  apply (proj2 (setters_reject_before_posting (rt := bare_runtime)
                  (dm := always (object_reply []))
                  VNone TypeError fresh_goat [] eq_refl)).
Defined.

(** The round trip through an automatic refresh that is answered with the
    snapshot. *)
Lemma snapshot_round_trip_witness :
  outcome (Goat.heading (rt := bare_runtime)
             (dm := snapshot_daemon) fresh_goat [])
  = Return (mkBearing (VFloat 90)) /\
  outcome (Goat.position (rt := bare_runtime)
             (dm := snapshot_daemon) fresh_goat [])
  = Return (mkPoint (VFloat 51.5) (VFloat (-0.1))).
Proof.
  pose proof (proj2 (snapshot_round_trip (rt := bare_runtime)
                       (dm := snapshot_daemon)
                       Goatd.default [])
                (VDict []) eq_refl) as H.
  split; [apply H | apply H].
Defined.

(** [get_home_position] against [{"waypoints": [[1, 2]]}] and against
    [{"waypoints": [], "home": [3, 4]}]. *)
Lemma home_position_is_optional_witness :
  outcome (get_home_position (rt := bare_runtime)
             (dm := always (object_reply
                              [("waypoints", VList [VList [VInt 1; VInt 2]])]))
             None tt [])
  = Return None /\
  outcome (get_home_position (rt := bare_runtime)
             (dm := always (object_reply
                              [("waypoints", VList []);
                               ("home", VList [VInt 3; VInt 4])]))
             None tt [])
  = Return (Some (mkPoint (VInt 3) (VInt 4))).
Proof.
  split.
  - rewrite (proj1 (home_position_is_optional
                      (dm := always (object_reply
                               [("waypoints", VList [VList [VInt 1; VInt 2]])]))
                      None [] _ eq_refl) eq_refl).
    reflexivity.
  - rewrite (proj2 (home_position_is_optional
                      (dm := always (object_reply
                               [("waypoints", VList []);
                                ("home", VList [VInt 3; VInt 4])]))
                      None [] _ eq_refl) (VInt 3) (VInt 4) eq_refl).
    reflexivity.
Defined.

(** ** Counterexamples *)

(** C3 as stated fails: against the response [{}], which has no [goatd]
    key, [version] raises [AttributeError] and does not return [None]. *)
Lemma version_raises_without_goatd :
  outcome (Goatd.version (rt := bare_runtime)
             (dm := always (object_reply [])) Goatd.default [])
  = Raise AttributeError /\
  outcome (Goatd.version (rt := bare_runtime)
             (dm := always (object_reply [])) Goatd.default [])
  <> Return VNone.
Proof. split; [reflexivity | discriminate]. Qed.

(** C4 as stated fails: against the response [{"active": null}],
    [start(None)] returns ["no behaviour running"] and [stop()] returns
    [None]. *)
Lemma stop_drops_the_result_of_start :
  let dm := always (object_reply [("active", VNone)]) in
  outcome (Behaviour.start (rt := bare_runtime) (dm := dm)
             VNone default_behaviour [])
  = Return (VStr "no behaviour running") /\
  outcome (Behaviour.stop (rt := bare_runtime) (dm := dm)
             default_behaviour [])
  = Return VNone /\
  outcome (Behaviour.stop (rt := bare_runtime) (dm := dm)
             default_behaviour [])
  <> outcome (Behaviour.start (rt := bare_runtime) (dm := dm)
                VNone default_behaviour []).
Proof.
  cbv zeta. split; [reflexivity | split; [reflexivity | discriminate]].
Qed.

(** * Further properties of the client *)

(** ** The transport *)

Section FurtherTransport.
Context {rt : Runtime} {dm : Daemon}.

Lemma quit_run (g : Goatd.t) (printed : list string) (sent : list request) :
  let req := post_request g (VDict [("quit", VBool true)]) "/" in
  quit (g, printed) sent
  = (match fetched (respond sent req) with
     | Return content =>
         (Return VNone, (g, (printed ++ [py_str content])%list))
     | Raise e => (Raise e, (g, printed))
     end, (sent ++ [req])%list).
Proof.
  cbv zeta. unfold quit, bind, silently, print, ret. cbn [fst snd].
  rewrite post_run.
  destruct (fetched _); reflexivity.
Qed.

(** [get(endpoint)] sends one request, a GET of
    [http://{host}:{port}{endpoint}] without body or headers, and leaves
    the Goatd as it is.  A failed request, a body that is not UTF-8 and a
    text that is not JSON each reach the caller as their exception; a JSON
    text comes back as its value, of whatever type. *)
Theorem get_sends_one_request (g : Goatd.t) (endpoint : string)
  (sent : list request) :
  let req := {| method := GET;
                full_url := "http://" ++ Goatd.host g ++ ":"
                            ++ str_of_int (Goatd.port g) ++ endpoint;
                data := None; headers := [] |} in
  let after := Goatd.get endpoint g sent in
  requests after = (sent ++ [req])%list /\
  receiver after = g /\
  outcome after = match respond sent req with
                  | NoResponse e => Raise e
                  | Response NotUtf8 => Raise UnicodeDecodeError
                  | Response (Utf8 NotJson) => Raise JSONDecodeError
                  | Response (Utf8 (JsonText v)) => Return v
                  end.
Proof.
  cbv zeta. rewrite get_run. repeat split.
Qed.

(** [post(content, endpoint)] sends one request, a POST of [content] to
    [http://{host}:{port}{endpoint}] with the single header
    [Content-Type: application/json], and leaves the Goatd as it is; its
    result is decided by the reply as that of [get] is. *)
Theorem post_sends_one_request (g : Goatd.t) (content : value)
  (endpoint : string) (sent : list request) :
  let req := {| method := POST;
                full_url := "http://" ++ Goatd.host g ++ ":"
                            ++ str_of_int (Goatd.port g) ++ endpoint;
                data := Some content;
                headers := [("Content-Type", "application/json")] |} in
  let after := Goatd.post content endpoint g sent in
  requests after = (sent ++ [req])%list /\
  receiver after = g /\
  outcome after = match respond sent req with
                  | NoResponse e => Raise e
                  | Response NotUtf8 => Raise UnicodeDecodeError
                  | Response (Utf8 NotJson) => Raise JSONDecodeError
                  | Response (Utf8 (JsonText v)) => Return v
                  end.
Proof.
  cbv zeta. rewrite post_run. repeat split.
Qed.

(** [quit()] sends one POST of [{"quit": true}] to [/].  When a JSON value
    comes back it is printed, once, as [str] prints it, and the call
    returns [None]; when the POST fails nothing is printed and the failure
    is raised. *)
Theorem quit_posts_then_prints (g : Goatd.t) (printed : list string)
  (sent : list request) :
  let req := post_request g (VDict [("quit", VBool true)]) "/" in
  let after := quit (g, printed) sent in
  requests after = (sent ++ [req])%list /\
  fst (receiver after) = g /\
  match fetched (respond sent req) with
  | Return content =>
      outcome after = Return VNone /\
      snd (receiver after) = (printed ++ [py_str content])%list
  | Raise e =>
      outcome after = Raise e /\ snd (receiver after) = printed
  end.
Proof.
  cbv zeta. rewrite quit_run. cbv zeta.
  destruct (fetched _); repeat split.
Qed.

(** When the response to the GET of [/] is an object whose [goatd] entry is
    an object, [version] returns the [version] entry of the latter as it
    is, and [None] when there is none. *)
Theorem version_reads_nested_field (g : Goatd.t) (sent : list request)
  (d inner : list (string * value)) :
  respond sent (get_request g "/") = json_reply (VDict d) ->
  dict_get d "goatd" VNone = VDict inner ->
  Goatd.version g sent
  = (Return (dict_get inner "version" VNone), g,
     (sent ++ [get_request g "/"])%list).
Proof.
  intros Hreply Hgoatd. rewrite version_run, Hreply.
  unfold py_get. cbn. now rewrite Hgoatd.
Qed.
End FurtherTransport.

(** ** One request, one failure *)

Section Calls.
Context {rt : Runtime} {dm : Daemon}.

Lemma set_rudder_run (angle : value) (g : Goat.t) (sent : list request) :
  Goat.set_rudder angle g sent
  = match py_float angle with
    | Return f =>
        (match fetched (respond sent (rudder_request f g)) with
         | Return response => py_get response "result"
         | Raise e => Raise e
         end, g, (sent ++ [rudder_request f g])%list)
    | Raise e => (Raise e, g, sent)
    end.
Proof.
  unfold Goat.set_rudder, bind, lift, this, call, rudder_request.
  destruct (py_float angle) as [f|e]; [|reflexivity].
  cbn [py_float]. rewrite post_run.
  destruct (fetched _); reflexivity.
Qed.

Lemma set_sail_run (angle : value) (g : Goat.t) (sent : list request) :
  Goat.set_sail angle g sent
  = match py_float angle with
    | Return f =>
        (match fetched (respond sent (sail_request f g)) with
         | Return response => py_get response "result"
         | Raise e => Raise e
         end, g, (sent ++ [sail_request f g])%list)
    | Raise e => (Raise e, g, sent)
    end.
Proof.
  unfold Goat.set_sail, bind, lift, this, call, sail_request.
  destruct (py_float angle) as [f|e]; [|reflexivity].
  cbn [py_float]. rewrite post_run.
  destruct (fetched _); reflexivity.
Qed.

Lemma stop_run (b : Behaviour.t) (sent : list request) :
  Behaviour.stop b sent
  = (match fetched (respond sent (start_request VNone b)) with
     | Return d =>
         match py_get d "active" with
         | Return _ => Return VNone
         | Raise e => Raise e
         end
     | Raise e => Raise e
     end, b, (sent ++ [start_request VNone b])%list).
Proof.
  unfold Behaviour.stop, bind, ret. rewrite start_run. cbv zeta.
  unfold start_request.
  destruct (fetched _) as [d|e]; [|reflexivity].
  destruct (py_get d "active"); reflexivity.
Qed.

Lemma behaviour_data_run (b : Behaviour.t) (sent : list request) :
  _get_behaviour_data b sent
  = (fetched (respond sent (behaviours_request b)), b,
     (sent ++ [behaviours_request b])%list).
Proof.
  unfold _get_behaviour_data, bind, this, call. now rewrite get_run.
Qed.

Lemma list_run (b : Behaviour.t) (sent : list request) :
  Behaviour_list b sent
  = (match fetched (respond sent (behaviours_request b)) with
     | Return data =>
         match py_get data "behaviours" with
         | Return behaviours => result_map VList (py_keys behaviours)
         | Raise e => Raise e
         end
     | Raise e => Raise e
     end, b, (sent ++ [behaviours_request b])%list).
Proof.
  unfold Behaviour_list, bind, lift, ret. rewrite behaviour_data_run.
  destruct (fetched _) as [data|e]; [|reflexivity].
  destruct (py_get data "behaviours") as [behaviours|e]; [|reflexivity].
  destruct (py_keys behaviours); reflexivity.
Qed.

Lemma waypoints_run (goatd : option Goatd.t) (sent : list request) :
  get_current_waypoints goatd tt sent
  = (match fetched (respond sent (waypoints_request goatd)) with
     | Return content =>
         match py_get content "waypoints" with
         | Return waypoints =>
             match py_iter waypoints with
             | Return items => comprehension Point_star items
             | Raise e => Raise e
             end
         | Raise e => Raise e
         end
     | Raise e => Raise e
     end, tt, (sent ++ [waypoints_request goatd])%list).
Proof.
  unfold get_current_waypoints, bind, call, lift, waypoints_request,
    transport_of.
  rewrite get_run.
  destruct (fetched _) as [content|e]; [|reflexivity].
  destruct (py_get content "waypoints") as [waypoints|e]; [|reflexivity].
  destruct (py_iter waypoints); reflexivity.
Qed.

Lemma home_run (goatd : option Goatd.t) (sent : list request) :
  get_home_position goatd tt sent
  = (match fetched (respond sent (waypoints_request goatd)) with
     | Return content =>
         match py_get_or content "home" VNone with
         | Return home =>
             if is_not_None home then
               result_map (fun ll => Some (mkPoint (fst ll) (snd ll)))
                 (unpack2 home)
             else Return None
         | Raise e => Raise e
         end
     | Raise e => Raise e
     end, tt, (sent ++ [waypoints_request goatd])%list).
Proof.
  unfold get_home_position, bind, call, lift, ret, waypoints_request,
    transport_of.
  rewrite get_run.
  destruct (fetched _) as [content|e]; [|reflexivity].
  destruct (py_get_or content "home" VNone) as [home|e]; [|reflexivity].
  destruct (is_not_None home); [|reflexivity].
  destruct (unpack2 home); reflexivity.
Qed.

Ltac non_object :=
  let self := fresh "self" in
  let sent := fresh "sent" in
  let content := fresh "content" in
  let Hreply := fresh "Hreply" in
  let Hshape := fresh "Hshape" in
  intros self sent content Hreply Hshape;
  destruct content; try discriminate Hshape.

(** A response that is JSON but not an object (a list, a string, a number,
    [true], [false], [null]) makes [version], [start], [stop], the
    Behaviour listing, both setters and both waypoint queries raise
    [AttributeError]: the request has been sent by then, and the object is
    as it was. *)
Theorem non_object_response_is_rejected :
  rejects_non_object Goatd.version (fun g => get_request g "/") /\
  (forall name : value,
     rejects_non_object (Behaviour.start name) (start_request name)) /\
  rejects_non_object Behaviour.stop (start_request VNone) /\
  rejects_non_object Behaviour_list behaviours_request /\
  (forall (angle : value) (f : float),
     py_float angle = Return f ->
     rejects_non_object (Goat.set_rudder angle) (rudder_request f)) /\
  (forall (angle : value) (f : float),
     py_float angle = Return f ->
     rejects_non_object (Goat.set_sail angle) (sail_request f)) /\
  (forall goatd : option Goatd.t,
     rejects_non_object (get_home_position goatd)
       (fun _ => waypoints_request goatd)) /\
  (forall goatd : option Goatd.t,
     rejects_non_object (get_current_waypoints goatd)
       (fun _ => waypoints_request goatd)).
Proof.
  repeat apply conj.
  - non_object; now rewrite version_run, Hreply.
  - intros name. non_object; rewrite start_run; cbv zeta;
      unfold start_request in Hreply; now rewrite Hreply.
  - non_object; now rewrite stop_run, Hreply.
  - non_object; now rewrite list_run, Hreply.
  - intros angle f Hfloat. non_object;
      now rewrite set_rudder_run, Hfloat, Hreply.
  - intros angle f Hfloat. non_object;
      now rewrite set_sail_run, Hfloat, Hreply.
  - intros goatd. non_object; destruct self;
      now rewrite home_run, Hreply.
  - intros goatd. non_object; destruct self;
      now rewrite waypoints_run, Hreply.
Qed.

Ltac failing :=
  let self := fresh "self" in
  let sent := fresh "sent" in
  let e := fresh "e" in
  let Hreply := fresh "Hreply" in
  intros self sent e Hreply.

(** A request that fails, with a transport error or with a body that does
    not decode, fails the call that made it with the same exception, in
    [version], [quit], [start], [stop], the Behaviour listing, both setters
    and both waypoint queries alike; nothing is printed, nothing is
    swapped, and no second request is tried. *)
Theorem request_failure_propagates :
  propagates Goatd.version (fun g => get_request g "/") /\
  propagates quit
    (fun s => post_request (fst s) (VDict [("quit", VBool true)]) "/") /\
  (forall name : value,
     propagates (Behaviour.start name) (start_request name)) /\
  propagates Behaviour.stop (start_request VNone) /\
  propagates Behaviour_list behaviours_request /\
  (forall (angle : value) (f : float),
     py_float angle = Return f ->
     propagates (Goat.set_rudder angle) (rudder_request f)) /\
  (forall (angle : value) (f : float),
     py_float angle = Return f ->
     propagates (Goat.set_sail angle) (sail_request f)) /\
  (forall goatd : option Goatd.t,
     propagates (get_home_position goatd)
       (fun _ => waypoints_request goatd)) /\
  (forall goatd : option Goatd.t,
     propagates (get_current_waypoints goatd)
       (fun _ => waypoints_request goatd)).
Proof.
  repeat apply conj.
  - failing. now rewrite version_run, Hreply.
  - failing. destruct self as [g printed]. rewrite quit_run. cbv zeta.
    cbn [fst] in Hreply. now rewrite Hreply.
  - intros name. failing. rewrite start_run. cbv zeta.
    unfold start_request in Hreply. now rewrite Hreply.
  - failing. now rewrite stop_run, Hreply.
  - failing. now rewrite list_run, Hreply.
  - intros angle f Hfloat. failing.
    now rewrite set_rudder_run, Hfloat, Hreply.
  - intros angle f Hfloat. failing.
    now rewrite set_sail_run, Hfloat, Hreply.
  - intros goatd. failing. destruct self. now rewrite home_run, Hreply.
  - intros goatd. failing. destruct self.
    now rewrite waypoints_run, Hreply.
Qed.
End Calls.

(** ** What a call leaves behind *)

Section Frames.
Context {rt : Runtime} {dm : Daemon}.

Lemma property_run {A : Type} (f : M Goat.t A) (g : Goat.t)
  (sent : list request) :
  reads_cache_only f ->
  Goat._auto_update f g sent
  = if Goat.auto_update g then
      match fetched (respond sent (goat_request g)) with
      | Return snapshot =>
          (of_snapshot f snapshot, Goat.set_cached_goat snapshot g,
           (sent ++ [goat_request g])%list)
      | Raise e => (Raise e, g, (sent ++ [goat_request g])%list)
      end
    else (of_snapshot f (Goat._cached_goat g), g, sent).
Proof.
  intros Hf. destruct (Goat.auto_update g) eqn:Hau.
  - rewrite (auto_update_on f g sent Hau).
    destruct (fetched _); [apply Hf | reflexivity].
  - rewrite (auto_update_off f g sent Hau). apply Hf.
Qed.

Lemma property_sends_when_auto {A : Type} (f : M Goat.t A) :
  reads_cache_only f -> sends_when_auto (Goat._auto_update f).
Proof.
  intros Hf g sent. rewrite (property_run f g sent Hf).
  destruct (Goat.auto_update g); [|reflexivity].
  destruct (fetched _); reflexivity.
Qed.

Lemma property_keeps_transport_and_flag {A : Type} (f : M Goat.t A) :
  reads_cache_only f -> keeps_transport_and_flag (Goat._auto_update f).
Proof.
  intros Hf g sent. rewrite (property_run f g sent Hf).
  destruct (Goat.auto_update g) eqn:Hau; [|cbn; auto].
  destruct (fetched _); cbn; auto.
Qed.

(** Every call sends a fixed list of requests, never more than one, and
    sends it whatever the daemon answers: [url] sends nothing; [get],
    [post], [version], [quit], [update], [start], [stop], the Behaviour
    listing and the two waypoint queries send exactly one request, their
    own; a property sends the GET of [/goat] when the flag is set and
    nothing when it is clear; a setter sends its POST when [float()]
    accepts the angle and nothing when it rejects it. *)
Theorem every_call_sends_one_request_or_none :
  (forall endpoint : string, sends_nothing (Goatd.url endpoint)) /\
  (forall endpoint : string,
     sends_exactly (Goatd.get endpoint) (fun g => get_request g endpoint)) /\
  (forall (content : value) (endpoint : string),
     sends_exactly (Goatd.post content endpoint)
       (fun g => post_request g content endpoint)) /\
  sends_exactly Goatd.version (fun g => get_request g "/") /\
  sends_exactly quit (fun s => quit_request (fst s)) /\
  sends_exactly Goat.update goat_request /\
  sends_when_auto Goat.heading /\
  sends_when_auto Goat.wind /\
  sends_when_auto Goat.position /\
  sends_when_auto Goat.target_rudder_angle /\
  sends_when_auto Goat.target_sail_angle /\
  sends_when_accepted Goat.set_rudder rudder_request /\
  sends_when_accepted Goat.set_sail sail_request /\
  (forall name : value,
     sends_exactly (Behaviour.start name) (start_request name)) /\
  sends_exactly Behaviour.stop (start_request VNone) /\
  sends_exactly _get_behaviour_data behaviours_request /\
  sends_exactly Behaviour_list behaviours_request /\
  (forall goatd : option Goatd.t,
     sends_exactly (get_home_position goatd)
       (fun _ => waypoints_request goatd)) /\
  (forall goatd : option Goatd.t,
     sends_exactly (get_current_waypoints goatd)
       (fun _ => waypoints_request goatd)).
Proof.
  repeat apply conj.
  - intros endpoint g sent. now rewrite url_run.
  - intros endpoint g sent. now rewrite get_run.
  - intros content endpoint g sent. now rewrite post_run.
  - intros g sent. now rewrite version_run.
  - intros [g printed] sent. now rewrite quit_run.
  - intros g sent. now rewrite update_run.
  - apply property_sends_when_auto, heading_reads_cache.
  - apply property_sends_when_auto, wind_reads_cache.
  - apply property_sends_when_auto, position_reads_cache.
  - apply property_sends_when_auto, target_rudder_angle_reads_cache.
  - apply property_sends_when_auto, target_sail_angle_reads_cache.
  - intros angle g sent. rewrite set_rudder_run.
    now destruct (py_float angle).
  - intros angle g sent. rewrite set_sail_run.
    now destruct (py_float angle).
  - intros name b sent. now rewrite start_run.
  - intros b sent. now rewrite stop_run.
  - intros b sent. now rewrite behaviour_data_run.
  - intros b sent. now rewrite list_run.
  - intros goatd [] sent. now rewrite home_run.
  - intros goatd [] sent. now rewrite waypoints_run.
Qed.

(** No call replaces the transport of an object or flips its [auto_update]
    flag.  A Goatd comes out of every one of its methods, [url], [get],
    [post], [quit] and [version], as it went in; so does a Behaviour out
    of [_get_behaviour_data], the listing, [start] and [stop], and a Goat
    out of a setter; [update] and the properties change at most the
    cached snapshot. *)
Theorem calls_keep_transport_and_flag :
  (forall endpoint : string, keeps_receiver (Goatd.url endpoint)) /\
  (forall endpoint : string, keeps_receiver (Goatd.get endpoint)) /\
  (forall (content : value) (endpoint : string),
     keeps_receiver (Goatd.post content endpoint)) /\
  keeps_receiver Goatd.version /\
  keeps_object quit /\
  (forall name : value, keeps_receiver (Behaviour.start name)) /\
  keeps_receiver Behaviour.stop /\
  keeps_receiver _get_behaviour_data /\
  keeps_receiver Behaviour_list /\
  (forall angle : value, keeps_receiver (Goat.set_rudder angle)) /\
  (forall angle : value, keeps_receiver (Goat.set_sail angle)) /\
  keeps_transport_and_flag Goat.update /\
  keeps_transport_and_flag Goat.heading /\
  keeps_transport_and_flag Goat.wind /\
  keeps_transport_and_flag Goat.position /\
  keeps_transport_and_flag Goat.target_rudder_angle /\
  keeps_transport_and_flag Goat.target_sail_angle.
Proof.
  repeat apply conj.
  - intros endpoint g sent. now rewrite url_run.
  - intros endpoint g sent. now rewrite get_run.
  - intros content endpoint g sent. now rewrite post_run.
  - intros g sent. now rewrite version_run.
  - intros g printed sent. rewrite quit_run. cbv zeta.
    now destruct (fetched _).
  - intros name b sent. now rewrite start_run.
  - intros b sent. now rewrite stop_run.
  - intros b sent. now rewrite behaviour_data_run.
  - intros b sent. now rewrite list_run.
  - intros angle g sent. rewrite set_rudder_run.
    now destruct (py_float angle).
  - intros angle g sent. rewrite set_sail_run.
    now destruct (py_float angle).
  - intros g sent. rewrite update_run.
    destruct (fetched _); split; reflexivity.
  - apply property_keeps_transport_and_flag, heading_reads_cache.
  - apply property_keeps_transport_and_flag, wind_reads_cache.
  - apply property_keeps_transport_and_flag, position_reads_cache.
  - apply property_keeps_transport_and_flag, target_rudder_angle_reads_cache.
  - apply property_keeps_transport_and_flag, target_sail_angle_reads_cache.
Qed.

Lemma refresh_then_read {A : Type} (f : M Goat.t A) (g : Goat.t)
  (sent : list request) :
  reads_cache_only f ->
  Goat.auto_update g = false ->
  (Goat.update ;; Goat._auto_update f) g sent
  = match Goat._auto_update f (with_auto_update true g) sent with
    | (r, g', sent') => (r, with_auto_update false g', sent')
    end.
Proof.
  intros Hf Hau. unfold bind at 1. rewrite update_run.
  rewrite (property_run f (with_auto_update true g) sent Hf).
  cbn [with_auto_update Goat.auto_update].
  change (goat_request (with_auto_update true g)) with (goat_request g).
  destruct g as [gd au cache]. cbn in Hau. subst au.
  destruct (fetched _) as [snapshot|e]; [|reflexivity].
  rewrite (property_run f _ _ Hf). reflexivity.
Qed.

(** On a Goat that does not refresh by itself, [update()] followed by the
    read of a property is the read of that property on the same Goat with
    the flag set: the same single request, the same result, the same new
    snapshot. *)
Theorem manual_refresh_then_read_is_auto_read (g : Goat.t)
  (sent : list request) :
  Goat.auto_update g = false ->
  let auto := with_auto_update true g in
  (Goat.update ;; Goat.heading) g sent
  = (outcome (Goat.heading auto sent),
     with_auto_update false (receiver (Goat.heading auto sent)),
     requests (Goat.heading auto sent)) /\
  (Goat.update ;; Goat.wind) g sent
  = (outcome (Goat.wind auto sent),
     with_auto_update false (receiver (Goat.wind auto sent)),
     requests (Goat.wind auto sent)) /\
  (Goat.update ;; Goat.position) g sent
  = (outcome (Goat.position auto sent),
     with_auto_update false (receiver (Goat.position auto sent)),
     requests (Goat.position auto sent)) /\
  (Goat.update ;; Goat.target_rudder_angle) g sent
  = (outcome (Goat.target_rudder_angle auto sent),
     with_auto_update false (receiver (Goat.target_rudder_angle auto sent)),
     requests (Goat.target_rudder_angle auto sent)) /\
  (Goat.update ;; Goat.target_sail_angle) g sent
  = (outcome (Goat.target_sail_angle auto sent),
     with_auto_update false (receiver (Goat.target_sail_angle auto sent)),
     requests (Goat.target_sail_angle auto sent)).
Proof.
  intros Hau. cbv zeta.
  unfold Goat.heading, Goat.wind, Goat.position, Goat.target_rudder_angle,
    Goat.target_sail_angle.
  rewrite (refresh_then_read _ g sent heading_reads_cache Hau).
  rewrite (refresh_then_read _ g sent wind_reads_cache Hau).
  rewrite (refresh_then_read _ g sent position_reads_cache Hau).
  rewrite (refresh_then_read _ g sent target_rudder_angle_reads_cache Hau).
  rewrite (refresh_then_read _ g sent target_sail_angle_reads_cache Hau).
  repeat apply conj;
    match goal with
    | |- context [Goat._auto_update ?f ?a ?s] =>
        destruct (Goat._auto_update f a s) as [[r g'] sent']; reflexivity
    end.
Qed.
End Frames.

(** ** What the reads make of the snapshot *)

Lemma unpack2_wrong_length (l : list value) :
  length l <> 2%nat -> unpack2 (VList l) = Raise ValueError.
Proof.
  intros Hlen. destruct l as [|a [|b [|c l]]]; cbn in *;
    try reflexivity.
  now contradiction Hlen.
Qed.

Section Reads.
Context {rt : Runtime} {dm : Daemon}.

Ltac read_held Hau Hcache :=
  unfold Goat.heading, Goat.wind, Goat.position, Goat.target_rudder_angle,
    Goat.target_sail_angle;
  rewrite ?(auto_update_off _ _ _ Hau);
  unfold Goat.heading_f, Goat.wind_f, Goat.position_f,
    Goat.target_rudder_angle_f, Goat.target_sail_angle_f,
    bind, this, lift, ret, py_get, py_get_or;
  rewrite ?Hcache.

(** A setter does not refresh: on a Goat that does not refresh by itself, a
    read of [target_rudder_angle] right after a successful [set_rudder]
    gives what it gave before the call, and so does [target_sail_angle]
    after [set_sail]; the POST is the only request. *)
Theorem setters_leave_the_snapshot_stale (angle : value) (f : float)
  (g : Goat.t) (sent : list request) :
  Goat.auto_update g = false ->
  py_float angle = Return f ->
  (forall d : list (string * value),
     respond sent (rudder_request f g) = json_reply (VDict d) ->
     (Goat.set_rudder angle ;; Goat.target_rudder_angle) g sent
     = (outcome (Goat.target_rudder_angle g sent), g,
        (sent ++ [rudder_request f g])%list)) /\
  (forall d : list (string * value),
     respond sent (sail_request f g) = json_reply (VDict d) ->
     (Goat.set_sail angle ;; Goat.target_sail_angle) g sent
     = (outcome (Goat.target_sail_angle g sent), g,
        (sent ++ [sail_request f g])%list)).
Proof.
  intros Hau Hfloat. split; intros d Hreply; unfold bind at 1.
  - rewrite set_rudder_run, Hfloat, Hreply. cbn [fetched json_reply py_get
      py_get_or].
    unfold Goat.target_rudder_angle.
    rewrite !(auto_update_off _ _ _ Hau).
    now rewrite !target_rudder_angle_reads_cache.
  - rewrite set_sail_run, Hfloat, Hreply. cbn [fetched json_reply py_get
      py_get_or].
    unfold Goat.target_sail_angle.
    rewrite !(auto_update_off _ _ _ Hau).
    now rewrite !target_sail_angle_reads_cache.
Qed.

(** On a snapshot that is an object, a read that does not refresh fails
    when its field is missing, and sends nothing: [heading],
    [target_rudder_angle] and [target_sail_angle] with the [TypeError] of
    [float(None)], [position] with the [TypeError] of unpacking [None], and
    [wind] with the [AttributeError] of [None.get]. *)
Theorem missing_field_fails_the_read (g : Goat.t) (sent : list request)
  (d : list (string * value)) :
  Goat.auto_update g = false ->
  Goat._cached_goat g = VDict d ->
  (dict_mem d "heading" = false ->
   Goat.heading g sent = (Raise TypeError, g, sent)) /\
  (dict_mem d "wind" = false ->
   Goat.wind g sent = (Raise AttributeError, g, sent)) /\
  (dict_mem d "position" = false ->
   Goat.position g sent = (Raise TypeError, g, sent)) /\
  (dict_mem d "rudder_angle" = false ->
   Goat.target_rudder_angle g sent = (Raise TypeError, g, sent)) /\
  (dict_mem d "sail_angle" = false ->
   Goat.target_sail_angle g sent = (Raise TypeError, g, sent)).
Proof.
  intros Hau Hcache.
  repeat apply conj; intros Habsent; read_held Hau Hcache;
    now rewrite (dict_get_absent _ _ _ Habsent).
Qed.

(** On a snapshot that is an object, read without refresh: an integer in
    [heading], [rudder_angle] or [sail_angle] comes out as the float
    nearest to it; the two entries of [position] come out as they are,
    whatever their type; and a [position] list of another length is the
    [ValueError] of the unpacking. *)
Theorem reads_coerce_angles_not_positions (g : Goat.t)
  (sent : list request) (d : list (string * value)) :
  Goat.auto_update g = false ->
  Goat._cached_goat g = VDict d ->
  (forall (z : Z) (f : float),
     dict_get d "heading" VNone = VInt z ->
     float_of_int z = Return f ->
     Goat.heading g sent = (Return (mkBearing (VFloat f)), g, sent)) /\
  (forall (z : Z) (f : float),
     dict_get d "rudder_angle" VNone = VInt z ->
     float_of_int z = Return f ->
     Goat.target_rudder_angle g sent = (Return f, g, sent)) /\
  (forall (z : Z) (f : float),
     dict_get d "sail_angle" VNone = VInt z ->
     float_of_int z = Return f ->
     Goat.target_sail_angle g sent = (Return f, g, sent)) /\
  (forall lat lon : value,
     dict_get d "position" VNone = VList [lat; lon] ->
     Goat.position g sent = (Return (mkPoint lat lon), g, sent)) /\
  (forall l : list value,
     dict_get d "position" VNone = VList l ->
     length l <> 2%nat ->
     Goat.position g sent = (Raise ValueError, g, sent)).
Proof.
  intros Hau Hcache. repeat apply conj.
  - intros z f Hfield Hfloat. read_held Hau Hcache.
    rewrite Hfield. cbn [py_float]. now rewrite Hfloat.
  - intros z f Hfield Hfloat. read_held Hau Hcache.
    rewrite Hfield. cbn [py_float]. now rewrite Hfloat.
  - intros z f Hfield Hfloat. read_held Hau Hcache.
    rewrite Hfield. cbn [py_float]. now rewrite Hfloat.
  - intros lat lon Hfield. read_held Hau Hcache. now rewrite Hfield.
  - intros l Hfield Hlen. read_held Hau Hcache.
    now rewrite Hfield, (unpack2_wrong_length l Hlen).
Qed.
End Reads.

(** ** Behaviours and waypoints *)

Lemma comprehension_of_pairs (pairs : list (value * value)) :
  comprehension Point_star (map pair_entry pairs)
  = Return (map pair_point pairs).
Proof.
  induction pairs as [|p pairs IH]; cbn; [reflexivity|].
  now rewrite IH.
Qed.

Lemma comprehension_stops_at (pairs : list (value * value)) (bad : value)
  (rest : list value) (e : exn) :
  Point_star bad = Raise e ->
  comprehension Point_star (map pair_entry pairs ++ bad :: rest)%list
  = Raise e.
Proof.
  intros Hbad. induction pairs as [|p pairs IH]; cbn.
  - now rewrite Hbad.
  - change (comprehension Point_star
              (map pair_entry pairs ++ bad :: rest)%list = Raise e) in IH.
    now rewrite IH.
Qed.

Section Listings.
Context {rt : Runtime} {dm : Daemon}.

(** When the response to the GET of [/behaviours] is an object: if its
    [behaviours] entry is an object, the listing is the list of its keys,
    one for each entry and in the order of the entries; if there is no
    [behaviours] key, the listing raises [AttributeError]. *)
Theorem list_names_the_behaviours_in_order (b : Behaviour.t)
  (sent : list request) (d : list (string * value)) :
  respond sent (behaviours_request b) = json_reply (VDict d) ->
  (forall behaviours : list (string * value),
     dict_get d "behaviours" VNone = VDict behaviours ->
     Behaviour_list b sent
     = (Return (VList (map (fun kv => VStr (fst kv)) behaviours)), b,
        (sent ++ [behaviours_request b])%list)) /\
  (dict_mem d "behaviours" = false ->
   Behaviour_list b sent
   = (Raise AttributeError, b, (sent ++ [behaviours_request b])%list)).
Proof.
  intros Hreply. rewrite list_run, Hreply.
  cbn [fetched json_reply py_get py_get_or]. split.
  - intros behaviours Hfield. now rewrite Hfield.
  - intros Habsent. now rewrite (dict_get_absent _ _ _ Habsent).
Qed.

(** When the response to the GET of [/waypoints] is an object whose
    [waypoints] entry is a list of two-element lists,
    [get_current_waypoints] returns one Point for each entry, built from
    its two items, in the order of the entries; the empty list gives the
    empty list. *)
Theorem waypoints_become_points_in_order (goatd : option Goatd.t)
  (sent : list request) (d : list (string * value))
  (pairs : list (value * value)) :
  respond sent (waypoints_request goatd) = json_reply (VDict d) ->
  dict_get d "waypoints" VNone = VList (map pair_entry pairs) ->
  get_current_waypoints goatd tt sent
  = (Return (map pair_point pairs), tt,
     (sent ++ [waypoints_request goatd])%list).
Proof.
  intros Hreply Hfield. rewrite waypoints_run, Hreply.
  cbn [fetched json_reply py_get py_get_or]. rewrite Hfield.
  cbn [py_iter]. now rewrite comprehension_of_pairs.
Qed.

(** [get_current_waypoints] gives all the Points or none: when an entry of
    [waypoints] cannot be made a Point, the exception of the first such
    entry is raised, whatever follows it; and when the response has no
    [waypoints] key the call raises the [TypeError] of iterating [None]. *)
Theorem one_bad_waypoint_fails_the_query (goatd : option Goatd.t)
  (sent : list request) (d : list (string * value)) :
  respond sent (waypoints_request goatd) = json_reply (VDict d) ->
  (forall (pairs : list (value * value)) (bad : value) (rest : list value)
     (e : exn),
     dict_get d "waypoints" VNone
     = VList (map pair_entry pairs ++ bad :: rest)%list ->
     Point_star bad = Raise e ->
     get_current_waypoints goatd tt sent
     = (Raise e, tt, (sent ++ [waypoints_request goatd])%list)) /\
  (dict_mem d "waypoints" = false ->
   get_current_waypoints goatd tt sent
   = (Raise TypeError, tt, (sent ++ [waypoints_request goatd])%list)).
Proof.
  intros Hreply. rewrite waypoints_run, Hreply.
  cbn [fetched json_reply py_get py_get_or]. split.
  - intros pairs bad rest e Hfield Hbad. rewrite Hfield. cbn [py_iter].
    now rewrite (comprehension_stops_at pairs bad rest e Hbad).
  - intros Habsent. now rewrite (dict_get_absent _ _ _ Habsent).
Qed.

(** When the response to the GET of [/waypoints] is an object:
    [get_home_position] returns [None] for a [home] that is [null] as for
    one that is missing; a [home] list that has not exactly two entries is
    the [ValueError] of the unpacking; a [home] that is a number or a
    boolean is its [TypeError]. *)
Theorem home_position_edge_cases (goatd : option Goatd.t)
  (sent : list request) (d : list (string * value)) :
  respond sent (waypoints_request goatd) = json_reply (VDict d) ->
  let after := get_home_position goatd tt sent in
  (dict_get d "home" VNone = VNone -> outcome after = Return None) /\
  (forall l : list value,
     dict_get d "home" VNone = VList l ->
     length l <> 2%nat ->
     outcome after = Raise ValueError) /\
  (forall z : Z,
     dict_get d "home" VNone = VInt z -> outcome after = Raise TypeError) /\
  (forall f : float,
     dict_get d "home" VNone = VFloat f -> outcome after = Raise TypeError) /\
  (forall b : bool,
     dict_get d "home" VNone = VBool b -> outcome after = Raise TypeError).
Proof.
  intros Hreply. cbv zeta. rewrite home_run, Hreply.
  cbn [fetched json_reply py_get_or outcome fst]. repeat apply conj.
  - intros Hfield. now rewrite Hfield.
  - intros l Hfield Hlen. rewrite Hfield. cbn [is_not_None].
    now rewrite (unpack2_wrong_length l Hlen).
  - intros z Hfield. now rewrite Hfield.
  - intros f Hfield. now rewrite Hfield.
  - intros b Hfield. now rewrite Hfield.
Qed.
End Listings.

(** * The further properties at concrete inputs *)

(** [version] against [{"goatd": {"version": "2.0"}}]. *)
Lemma version_reads_nested_field_witness :
  Goatd.version (rt := bare_runtime)
    (dm := always (object_reply
                     [("goatd", VDict [("version", VStr "2.0")])]))
    Goatd.default []
  = (Return (VStr "2.0"), Goatd.default, [get_request Goatd.default "/"]).
Proof.
  exact (version_reads_nested_field (rt := bare_runtime)
           (dm := always (object_reply
                            [("goatd", VDict [("version", VStr "2.0")])]))
           Goatd.default [] _ [("version", VStr "2.0")] eq_refl eq_refl).
Defined.

(** Against the response [[]], [version] raises, and [set_rudder(10)]
    raises after its POST. *)
Lemma non_object_response_is_rejected_witness :
  Goatd.version (rt := bare_runtime) (dm := always (json_reply (VList [])))
    Goatd.default []
  = (Raise AttributeError, Goatd.default, [get_request Goatd.default "/"]) /\
  Goat.set_rudder (rt := bare_runtime) (dm := always (json_reply (VList [])))
    (VInt 10) fresh_goat []
  = (Raise AttributeError, fresh_goat, [rudder_request 10 fresh_goat]).
Proof.
  pose proof (non_object_response_is_rejected (rt := bare_runtime)
                (dm := always (json_reply (VList [])))) as H.
  split.
  - exact (proj1 H Goatd.default [] (VList []) eq_refl eq_refl).
  - exact (proj1 (proj2 (proj2 (proj2 (proj2 H)))) (VInt 10) 10%float
             eq_refl fresh_goat [] (VList []) eq_refl eq_refl).
Defined.

(** With the daemon out of reach, [start("tack")] raises [URLError], and
    [quit()] raises it and prints nothing. *)
Lemma request_failure_propagates_witness :
  Behaviour.start (rt := bare_runtime) (dm := always (NoResponse URLError))
    (VStr "tack") default_behaviour []
  = (Raise URLError, default_behaviour,
     [start_request (VStr "tack") default_behaviour]) /\
  quit (rt := bare_runtime) (dm := always (NoResponse URLError))
    (Goatd.default, []) []
  = (Raise URLError, (Goatd.default, []),
     [post_request Goatd.default (VDict [("quit", VBool true)]) "/"]).
Proof.
  pose proof (request_failure_propagates (rt := bare_runtime)
                (dm := always (NoResponse URLError))) as H.
  split.
  - exact (proj1 (proj2 (proj2 H)) (VStr "tack") default_behaviour []
             URLError eq_refl).
  - exact (proj1 (proj2 H) (Goatd.default, []) [] URLError eq_refl).
Defined.

(** A Goat constructed with [auto_update=False], refreshed by hand and
    read. *)
Lemma manual_refresh_then_read_is_auto_read_witness :
  (Goat.update (rt := bare_runtime) (dm := snapshot_daemon) ;;
   Goat.heading (rt := bare_runtime) (dm := snapshot_daemon))
    (Goat.__init__ None false) []
  = (Return (mkBearing (VFloat 90)), manual_goat goat_snapshot,
     [get_request Goatd.default "/goat"]).
Proof.
  exact (proj1 (manual_refresh_then_read_is_auto_read (rt := bare_runtime)
                  (dm := snapshot_daemon) (Goat.__init__ None false) []
                  eq_refl)).
Defined.

(** [set_rudder(5)] on a Goat that holds the round-trip snapshot: the read
    that follows still gives -10.0. *)
Lemma setters_leave_the_snapshot_stale_witness :
  (Goat.set_rudder (rt := bare_runtime)
     (dm := always (object_reply [("result", VInt 5)])) (VInt 5) ;;
   Goat.target_rudder_angle (rt := bare_runtime)
     (dm := always (object_reply [("result", VInt 5)])))
    (manual_goat goat_snapshot) []
  = (Return (-10)%float, manual_goat goat_snapshot,
     [rudder_request 5 (manual_goat goat_snapshot)]).
Proof.
  exact (proj1 (setters_leave_the_snapshot_stale (rt := bare_runtime)
                  (dm := always (object_reply [("result", VInt 5)]))
                  (VInt 5) 5%float (manual_goat goat_snapshot) []
                  eq_refl eq_refl)
           [("result", VInt 5)] eq_refl).
Defined.

(** A Goat that has never been refreshed holds the empty dict. *)
Lemma missing_field_fails_the_read_witness :
  Goat.heading (rt := bare_runtime) (dm := snapshot_daemon)
    (Goat.__init__ None false) []
  = (Raise TypeError, Goat.__init__ None false, []) /\
  Goat.wind (rt := bare_runtime) (dm := snapshot_daemon)
    (Goat.__init__ None false) []
  = (Raise AttributeError, Goat.__init__ None false, []).
Proof.
  pose proof (missing_field_fails_the_read (rt := bare_runtime)
                (dm := snapshot_daemon) (Goat.__init__ None false) [] []
                eq_refl eq_refl) as H.
  split.
  - exact (proj1 H eq_refl).
  - exact (proj1 (proj2 H) eq_refl).
Defined.

(** The snapshot [{"heading": 90, "position": [1, 2]}], all integers. *)
Lemma reads_coerce_angles_not_positions_witness :
  let g := manual_goat (VDict [("heading", VInt 90);
                               ("position", VList [VInt 1; VInt 2])]) in
  Goat.heading (rt := bare_runtime) (dm := snapshot_daemon) g []
  = (Return (mkBearing (VFloat 90)), g, []) /\
  Goat.position (rt := bare_runtime) (dm := snapshot_daemon) g []
  = (Return (mkPoint (VInt 1) (VInt 2)), g, []).
Proof.
  cbv zeta.
  pose proof (reads_coerce_angles_not_positions (rt := bare_runtime)
                (dm := snapshot_daemon)
                (manual_goat (VDict [("heading", VInt 90);
                                     ("position", VList [VInt 1; VInt 2])]))
                [] _ eq_refl eq_refl) as H.
  split.
  - exact (proj1 H 90 90%float eq_refl eq_refl).
  - exact (proj1 (proj2 (proj2 (proj2 H))) (VInt 1) (VInt 2) eq_refl).
Defined.

(** The listing against [{"behaviours": {"tack": {}, "hold": {}}}]. *)
Lemma list_names_the_behaviours_in_order_witness :
  outcome (Behaviour_list (rt := bare_runtime)
             (dm := always (object_reply
                              [("behaviours",
                                VDict [("tack", VDict []);
                                       ("hold", VDict [])])]))
             default_behaviour [])
  = Return (VList [VStr "tack"; VStr "hold"]).
Proof.
  rewrite (proj1 (list_names_the_behaviours_in_order (rt := bare_runtime)
                    (dm := always (object_reply
                                     [("behaviours",
                                       VDict [("tack", VDict []);
                                              ("hold", VDict [])])]))
                    default_behaviour [] _ eq_refl)
             [("tack", VDict []); ("hold", VDict [])] eq_refl).
  reflexivity.
Defined.

(** The waypoints [[[1, 2], [3, 4]]]. *)
Lemma waypoints_become_points_in_order_witness :
  outcome (get_current_waypoints (rt := bare_runtime)
             (dm := always (object_reply
                              [("waypoints",
                                VList [VList [VInt 1; VInt 2];
                                       VList [VInt 3; VInt 4]])]))
             None tt [])
  = Return [mkPoint (VInt 1) (VInt 2); mkPoint (VInt 3) (VInt 4)].
Proof.
  rewrite (waypoints_become_points_in_order (rt := bare_runtime)
             (dm := always (object_reply
                              [("waypoints",
                                VList [VList [VInt 1; VInt 2];
                                       VList [VInt 3; VInt 4]])]))
             None [] _ [(VInt 1, VInt 2); (VInt 3, VInt 4)]
             eq_refl eq_refl).
  reflexivity.
Defined.

(** The waypoints [[[1, 2], [3]]]: the second entry has one item. *)
Lemma one_bad_waypoint_fails_the_query_witness :
  outcome (get_current_waypoints (rt := bare_runtime)
             (dm := always (object_reply
                              [("waypoints",
                                VList [VList [VInt 1; VInt 2];
                                       VList [VInt 3]])]))
             None tt [])
  = Raise TypeError.
Proof.
  rewrite (proj1 (one_bad_waypoint_fails_the_query (rt := bare_runtime)
                    (dm := always (object_reply
                                     [("waypoints",
                                       VList [VList [VInt 1; VInt 2];
                                              VList [VInt 3]])]))
                    None [] _ eq_refl)
             [(VInt 1, VInt 2)] (VList [VInt 3]) [] TypeError
             eq_refl eq_refl).
  reflexivity.
Defined.

(** [get_home_position] against [{"home": null}] and [{"home": [1]}]. *)
Lemma home_position_edge_cases_witness :
  outcome (get_home_position (rt := bare_runtime)
             (dm := always (object_reply [("home", VNone)])) None tt [])
  = Return None /\
  outcome (get_home_position (rt := bare_runtime)
             (dm := always (object_reply [("home", VList [VInt 1])]))
             None tt [])
  = Raise ValueError.
Proof.
  split.
  - exact (proj1 (home_position_edge_cases (rt := bare_runtime)
                    (dm := always (object_reply [("home", VNone)]))
                    None [] _ eq_refl) eq_refl).
  - refine (proj1 (proj2 (home_position_edge_cases (rt := bare_runtime)
                    (dm := always (object_reply [("home", VList [VInt 1])]))
                    None [] _ eq_refl)) [VInt 1] eq_refl _).
    discriminate.
Defined.
